(** * Task manager back end: documents, routes and their invariants

    A shallow embedding of the Mongoose models [Task] and [Project]
    (backend/models) and of the Express routes on tasks and projects
    (backend/routes), followed by the properties of the task life cycle,
    of project membership, of cascading deletion and of the dashboard
    aggregates.

    Conventions of the embedding.
    - A collection is a finite map from [_id] to the other fields of the
      document; a document with its [_id] is a pair.
    - An [ObjectId] is represented by the hex string [toString()] yields;
      ids taken from a request (path, query or body) are in that form.
    - Dates are integers (milliseconds); [new Date()] is the [now] a
      request carries.  Numbers sent by clients are integers.
    - [populate] and the socket broadcast do not touch the collections
      and are left out; replies carry the plain documents.
    - Mongoose tracks, per loaded document, whether it is new and which
      paths were assigned a different value; [isModified] reads that.
      [save] validates the document against the schema, then runs the
      [pre('save')] hooks, then writes. *)

From stdpp Require Import gmap strings list fin_maps sorting.
From Stdlib Require Import ZArith Ascii String.

Local Open Scope string_scope.
Local Open Scope Z_scope.

Abbreviation ObjectId := string (only parsing).
Abbreviation Date := Z (only parsing).

(** ** Strings: trimming, length, hex colours *)

Definition is_space (c : ascii) : bool :=
  let n := nat_of_ascii c in
  ((9 <=? n) && (n <=? 13))%nat || (n =? 32)%nat.

Fixpoint trimStart (s : string) : string :=
  match s with
  | String c r => if is_space c then trimStart r else s
  | EmptyString => EmptyString
  end.

Fixpoint trimEnd (s : string) : string :=
  match s with
  | String c r =>
      match trimEnd r with
      | EmptyString => if is_space c then EmptyString else String c EmptyString
      | r' => String c r'
      end
  | EmptyString => EmptyString
  end.

Definition trim (s : string) : string := trimEnd (trimStart s).

Definition strlen (s : string) : Z := Z.of_nat (String.length s).

Definition nonEmpty (s : string) : bool := negb (bool_decide (s = EmptyString)).

Definition is_hex (c : ascii) : bool :=
  let n := nat_of_ascii c in
  ((48 <=? n) && (n <=? 57) || (65 <=? n) && (n <=? 70) || (97 <=? n) && (n <=? 102))%nat.

Fixpoint all_hex (s : string) : bool :=
  match s with
  | String c r => is_hex c && all_hex r
  | EmptyString => true
  end.

(** /^#([A-Fa-f0-9]{6}|[A-Fa-f0-9]{3})$/ *)
Definition isHexColor (s : string) : bool :=
  match s with
  | String "#" r =>
      all_hex r
      && (bool_decide (String.length r = 6%nat) || bool_decide (String.length r = 3%nat))
  | _ => false
  end.

(** validator.js [isMongoId]: 24 hexadecimal characters. *)
Definition isMongoId (s : string) : bool :=
  all_hex s && bool_decide (String.length s = 24%nat).

(** JavaScript truthiness of the values a request carries. *)
Definition truthyStr (o : option string) : option string :=
  match o with
  | Some s => if nonEmpty s then Some s else None
  | None => None
  end.

Definition truthyNum (o : option Z) : option Z :=
  match o with
  | Some n => if bool_decide (n = 0) then None else Some n
  | None => None
  end.

(** ** Change tracking of a Mongoose document *)

Record Doc (A : Type) := mkDoc {
  fields : A;
  isNew : bool;
  modifiedPaths : list string;
  castErrors : list string
}.
Arguments mkDoc {A} _ _ _ _.
Arguments fields {A} _.
Arguments isNew {A} _.
Arguments modifiedPaths {A} _.
Arguments castErrors {A} _.

Definition isModified {A} (p : string) (d : Doc A) : bool :=
  bool_decide (p ∈ modifiedPaths d).

Definition anyModified {A} (d : Doc A) : bool :=
  match modifiedPaths d with [] => false | _ => true end.

Definition markModified {A} (p : string) (d : Doc A) : Doc A :=
  if isModified p d then d
  else mkDoc (fields d) (isNew d) (p :: modifiedPaths d) (castErrors d).

(** A document read from the collection: nothing modified. *)
Definition hydrate {A} (x : A) : Doc A := mkDoc x false [] [].

(** [doc.path = v]: the value is stored; the path is marked when the
    document is new or the value differs from the current one. *)
Definition assign {A B} `{EqDecision B} (p : string) (get : A → B) (put : B → A → A)
    (v : B) (d : Doc A) : Doc A :=
  let d' := mkDoc (put v (fields d)) (isNew d) (modifiedPaths d) (castErrors d) in
  if isNew d || negb (bool_decide (get (fields d) = v)) then markModified p d' else d'.

(** A value Mongoose cannot cast to the path's type. *)
Definition castFailure {A} (p : string) (d : Doc A) : Doc A :=
  mkDoc (fields d) (isNew d) (modifiedPaths d) (p :: castErrors d).

(** One schema path of a document that [save] validates: the path is
    reported when its validators fail. *)
Definition checkPath (p : string) (ok : bool) : list string :=
  if ok then [] else [p].

Definition inRange (lo hi : Z) (o : option Z) : bool :=
  match o with
  | Some n => (lo <=? n) && (n <=? hi)
  | None => true
  end.

Definition isSome {A} (o : option A) : bool :=
  match o with Some _ => true | None => false end.

(** ** models/Task.js *)

Module Task.

Record Label := mkLabel { name : string; color : string }.

Record Comment := mkComment {
  author : ObjectId;
  content : string;
  postedAt : Date
}.

Record t := mk {
  title : string;
  description : string;
  status : string;
  priority : string;
  project : ObjectId;
  assignee : option ObjectId;
  reporter : ObjectId;
  labels : list Label;
  dueDate : option Date;
  estimatedHours : option Z;
  progress : Z;
  comments : list Comment;
  completedAt : option Date;
  isArchived : bool;
  createdAt : Date;
  updatedAt : Date
}.

#[global] Instance label_eq_dec : EqDecision Label.
Proof. solve_decision. Defined.
#[global] Instance comment_eq_dec : EqDecision Comment.
Proof. solve_decision. Defined.
#[global] Instance eq_dec : EqDecision t.
Proof. solve_decision. Defined.

Definition statuses : list string :=
  ["todo"; "in-progress"; "review"; "completed"; "cancelled"].
Definition priorities : list string := ["low"; "medium"; "high"; "urgent"].

Definition set_title v x := mk v (description x) (status x) (priority x) (project x)
  (assignee x) (reporter x) (labels x) (dueDate x) (estimatedHours x) (progress x) (comments x)
  (completedAt x) (isArchived x) (createdAt x) (updatedAt x).
Definition set_description v x := mk (title x) v (status x) (priority x) (project x)
  (assignee x) (reporter x) (labels x) (dueDate x) (estimatedHours x) (progress x) (comments x)
  (completedAt x) (isArchived x) (createdAt x) (updatedAt x).
Definition set_status v x := mk (title x) (description x) v (priority x) (project x)
  (assignee x) (reporter x) (labels x) (dueDate x) (estimatedHours x) (progress x) (comments x)
  (completedAt x) (isArchived x) (createdAt x) (updatedAt x).
Definition set_priority v x := mk (title x) (description x) (status x) v (project x)
  (assignee x) (reporter x) (labels x) (dueDate x) (estimatedHours x) (progress x) (comments x)
  (completedAt x) (isArchived x) (createdAt x) (updatedAt x).
Definition set_project v x := mk (title x) (description x) (status x) (priority x) v
  (assignee x) (reporter x) (labels x) (dueDate x) (estimatedHours x) (progress x) (comments x)
  (completedAt x) (isArchived x) (createdAt x) (updatedAt x).
Definition set_assignee v x := mk (title x) (description x) (status x) (priority x)
  (project x) v (reporter x) (labels x) (dueDate x) (estimatedHours x) (progress x) (comments x)
  (completedAt x) (isArchived x) (createdAt x) (updatedAt x).
Definition set_reporter v x := mk (title x) (description x) (status x) (priority x)
  (project x) (assignee x) v (labels x) (dueDate x) (estimatedHours x) (progress x) (comments x)
  (completedAt x) (isArchived x) (createdAt x) (updatedAt x).
Definition set_labels v x := mk (title x) (description x) (status x) (priority x)
  (project x) (assignee x) (reporter x) v (dueDate x) (estimatedHours x) (progress x) (comments x)
  (completedAt x) (isArchived x) (createdAt x) (updatedAt x).
Definition set_dueDate v x := mk (title x) (description x) (status x) (priority x)
  (project x) (assignee x) (reporter x) (labels x) v (estimatedHours x) (progress x) (comments x)
  (completedAt x) (isArchived x) (createdAt x) (updatedAt x).
Definition set_estimatedHours v x := mk (title x) (description x) (status x)
  (priority x) (project x) (assignee x) (reporter x) (labels x) (dueDate x) v (progress x)
  (comments x) (completedAt x) (isArchived x) (createdAt x) (updatedAt x).
Definition set_progress v x := mk (title x) (description x) (status x) (priority x)
  (project x) (assignee x) (reporter x) (labels x) (dueDate x) (estimatedHours x) v (comments x)
  (completedAt x) (isArchived x) (createdAt x) (updatedAt x).
Definition set_comments v x := mk (title x) (description x) (status x) (priority x)
  (project x) (assignee x) (reporter x) (labels x) (dueDate x) (estimatedHours x) (progress x) v
  (completedAt x) (isArchived x) (createdAt x) (updatedAt x).
Definition set_completedAt v x := mk (title x) (description x) (status x) (priority x)
  (project x) (assignee x) (reporter x) (labels x) (dueDate x) (estimatedHours x) (progress x)
  (comments x) v (isArchived x) (createdAt x) (updatedAt x).
Definition set_createdAt v x := mk (title x) (description x) (status x) (priority x)
  (project x) (assignee x) (reporter x) (labels x) (dueDate x) (estimatedHours x) (progress x)
  (comments x) (completedAt x) (isArchived x) v (updatedAt x).
Definition set_updatedAt v x := mk (title x) (description x) (status x) (priority x)
  (project x) (assignee x) (reporter x) (labels x) (dueDate x) (estimatedHours x) (progress x)
  (comments x) (completedAt x) (isArchived x) (createdAt x) v.

(** [new Task()] before any path is set: only the schema defaults
    (status 'todo', priority 'medium', progress 0, isArchived false). *)
Definition blank : Doc t :=
  mkDoc
    (mk EmptyString EmptyString "todo" "medium" EmptyString None EmptyString [] None None 0 []
       None false 0 0)
    true [] [].

Definition labelOk (l : Label) : bool :=
  nonEmpty (name l) && (strlen (name l) <=? 30) && isHexColor (color l).

Definition commentOk (c : Comment) : bool :=
  nonEmpty (content c) && (strlen (content c) <=? 1000).

(** Schema validation run by [save]: the failing paths. *)
Definition validate (d : Doc t) : list string :=
  let x := fields d in
  castErrors d
  ++ checkPath "title" (nonEmpty (title x) && (strlen (title x) <=? 200))
  ++ checkPath "description" (strlen (description x) <=? 2000)
  ++ checkPath "status" (bool_decide (status x ∈ statuses))
  ++ checkPath "priority" (bool_decide (priority x ∈ priorities))
  ++ checkPath "project" (nonEmpty (project x))
  ++ checkPath "reporter" (nonEmpty (reporter x))
  ++ checkPath "labels" (forallb labelOk (labels x))
  ++ checkPath "estimatedHours" (inRange 0 1000 (estimatedHours x))
  ++ checkPath "progress" (inRange 0 100 (Some (progress x)))
  ++ checkPath "comments" (forallb commentOk (comments x)).

(** The [isOverdue] virtual. *)
Definition isOverdue (now : Date) (x : t) : bool :=
  match dueDate x with
  | None => false
  | Some due => if bool_decide (status x = "completed") then false else due <? now
  end.

(** [taskSchema.pre('save')]. *)
Definition preSave (now : Date) (d : Doc t) : Doc t :=
  let d1 :=
    if isModified "status" d
       && bool_decide (status (fields d) = "completed")
       && negb (isSome (completedAt (fields d)))
    then assign "progress" progress set_progress 100
           (assign "completedAt" completedAt set_completedAt (Some now) d)
    else d in
  if isModified "status" d1
     && negb (bool_decide (status (fields d1) = "completed"))
     && isSome (completedAt (fields d1))
  then assign "completedAt" completedAt set_completedAt None d1
  else d1.

(** The [timestamps: true] option. *)
Definition stamp (now : Date) (d : Doc t) : t :=
  let x := fields d in
  let x := if isNew d then set_createdAt now x else x in
  if isNew d || anyModified d then set_updatedAt now x else x.

(** [doc.save()]: validation, then the hooks; [None] when validation
    throws. The result is the document as written to the collection. *)
Definition save (now : Date) (d : Doc t) : option t :=
  match validate d with
  | [] => Some (stamp now (preSave now d))
  | _ => None
  end.

End Task.

(** ** models/Project.js *)

Module Project.

Record Member := mkMember {
  user : ObjectId;
  role : string;
  joinedAt : Date
}.

Record t := mk {
  name : string;
  description : string;
  status : string;
  priority : string;
  deadline : option Date;
  owner : ObjectId;
  members : list Member;
  tags : list string;
  color : string;
  progress : Z;
  isArchived : bool;
  createdAt : Date;
  updatedAt : Date
}.

#[global] Instance member_eq_dec : EqDecision Member.
Proof. solve_decision. Defined.
#[global] Instance eq_dec : EqDecision t.
Proof. solve_decision. Defined.

Definition statuses : list string :=
  ["planning"; "active"; "on-hold"; "completed"; "cancelled"].
Definition priorities : list string := ["low"; "medium"; "high"; "urgent"].
Definition roles : list string := ["owner"; "admin"; "member"; "viewer"].

Definition set_name v x := mk v (description x) (status x) (priority x) (deadline x)
  (owner x) (members x) (tags x) (color x) (progress x) (isArchived x) (createdAt x) (updatedAt x).
Definition set_description v x := mk (name x) v (status x) (priority x) (deadline x)
  (owner x) (members x) (tags x) (color x) (progress x) (isArchived x) (createdAt x) (updatedAt x).
Definition set_status v x := mk (name x) (description x) v (priority x) (deadline x)
  (owner x) (members x) (tags x) (color x) (progress x) (isArchived x) (createdAt x) (updatedAt x).
Definition set_priority v x := mk (name x) (description x) (status x) v (deadline x)
  (owner x) (members x) (tags x) (color x) (progress x) (isArchived x) (createdAt x) (updatedAt x).
Definition set_deadline v x := mk (name x) (description x) (status x) (priority x) v
  (owner x) (members x) (tags x) (color x) (progress x) (isArchived x) (createdAt x) (updatedAt x).
Definition set_owner v x := mk (name x) (description x) (status x) (priority x)
  (deadline x) v (members x) (tags x) (color x) (progress x) (isArchived x) (createdAt x)
  (updatedAt x).
Definition set_members v x := mk (name x) (description x) (status x) (priority x)
  (deadline x) (owner x) v (tags x) (color x) (progress x) (isArchived x) (createdAt x)
  (updatedAt x).
Definition set_tags v x := mk (name x) (description x) (status x) (priority x)
  (deadline x) (owner x) (members x) v (color x) (progress x) (isArchived x) (createdAt x)
  (updatedAt x).
Definition set_color v x := mk (name x) (description x) (status x) (priority x)
  (deadline x) (owner x) (members x) (tags x) v (progress x) (isArchived x) (createdAt x)
  (updatedAt x).
Definition set_progress v x := mk (name x) (description x) (status x) (priority x)
  (deadline x) (owner x) (members x) (tags x) (color x) v (isArchived x) (createdAt x)
  (updatedAt x).
Definition set_createdAt v x := mk (name x) (description x) (status x) (priority x)
  (deadline x) (owner x) (members x) (tags x) (color x) (progress x) (isArchived x) v
  (updatedAt x).
Definition set_updatedAt v x := mk (name x) (description x) (status x) (priority x)
  (deadline x) (owner x) (members x) (tags x) (color x) (progress x) (isArchived x)
  (createdAt x) v.

(** [new Project()] before any path is set: the schema defaults. *)
Definition blank : Doc t :=
  mkDoc
    (mk EmptyString EmptyString "planning" "medium" None EmptyString [] [] "#2196F3" 0 false
       0 0)
    true [] [].

Definition memberOk (m : Member) : bool :=
  nonEmpty (user m) && bool_decide (role m ∈ roles).

(** Schema validation run by [save]: the failing paths. *)
Definition validate (d : Doc t) : list string :=
  let x := fields d in
  castErrors d
  ++ checkPath "name" (nonEmpty (name x) && (strlen (name x) <=? 100))
  ++ checkPath "description" (strlen (description x) <=? 500)
  ++ checkPath "status" (bool_decide (status x ∈ statuses))
  ++ checkPath "priority" (bool_decide (priority x ∈ priorities))
  ++ checkPath "owner" (nonEmpty (owner x))
  ++ checkPath "members" (forallb memberOk (members x))
  ++ checkPath "tags" (forallb (λ g, strlen g <=? 30) (tags x))
  ++ checkPath "color" (isHexColor (color x))
  ++ checkPath "progress" (inRange 0 100 (Some (progress x))).

(** [members.some(member => member.user.toString() === id)] *)
Definition hasMember (id : ObjectId) (x : t) : bool :=
  existsb (λ m, bool_decide (user m = id)) (members x).

(** [projectSchema.pre('save')]: a new project gets its owner as a
    member with role 'owner' unless the owner is already listed. *)
Definition preSave (now : Date) (d : Doc t) : Doc t :=
  if isNew d then
    let ownerExists := hasMember (owner (fields d)) (fields d) in
    if negb ownerExists then
      assign "members" members set_members
        (members (fields d) ++ [mkMember (owner (fields d)) "owner" now])%list d
    else d
  else d.

Definition stamp (now : Date) (d : Doc t) : t :=
  let x := fields d in
  let x := if isNew d then set_createdAt now x else x in
  if isNew d || anyModified d then set_updatedAt now x else x.

Definition save (now : Date) (d : Doc t) : option t :=
  match validate d with
  | [] => Some (stamp now (preSave now d))
  | _ => None
  end.

(** The access predicates the routes spell out inline. *)
Definition hasAccess (actor : ObjectId) (x : t) : bool :=
  bool_decide (owner x = actor) || hasMember actor x.

Definition isAdmin (actor : ObjectId) (x : t) : bool :=
  existsb (λ m, bool_decide (user m = actor) && bool_decide (role m = "admin")) (members x).

Definition canManage (actor : ObjectId) (x : t) : bool :=
  bool_decide (owner x = actor) || isAdmin actor x.

End Project.

(** ** The store and the query language of the routes *)

Record User := mkUser { firstName : string; lastName : string }.

Record Db := mkDb {
  users : gmap ObjectId User;
  projects : gmap ObjectId Project.t;
  tasks : gmap ObjectId Task.t
}.

Definition emptyDb : Db := mkDb ∅ ∅ ∅.
Definition withProjects (ps : gmap ObjectId Project.t) (db : Db) : Db :=
  mkDb (users db) ps (tasks db).
Definition withTasks (ts : gmap ObjectId Task.t) (db : Db) : Db :=
  mkDb (users db) (projects db) ts.

(** Field values as a query sees them: ids are strings, dates numbers. *)
Inductive Value := Null | Bool (b : bool) | Str (s : string) | Num (n : Z).

#[global] Instance value_eq_dec : EqDecision Value.
Proof. solve_decision. Defined.

Definition optStr (o : option string) : Value :=
  match o with Some s => Str s | None => Null end.
Definition optNum (o : option Z) : Value :=
  match o with Some n => Num n | None => Null end.

Definition taskField (t : Task.t) (f : string) : Value :=
  if bool_decide (f = "title") then Str (Task.title t)
  else if bool_decide (f = "description") then Str (Task.description t)
  else if bool_decide (f = "status") then Str (Task.status t)
  else if bool_decide (f = "priority") then Str (Task.priority t)
  else if bool_decide (f = "project") then Str (Task.project t)
  else if bool_decide (f = "assignee") then optStr (Task.assignee t)
  else if bool_decide (f = "reporter") then Str (Task.reporter t)
  else if bool_decide (f = "dueDate") then optNum (Task.dueDate t)
  else if bool_decide (f = "progress") then Num (Task.progress t)
  else if bool_decide (f = "completedAt") then optNum (Task.completedAt t)
  else if bool_decide (f = "isArchived") then Bool (Task.isArchived t)
  else if bool_decide (f = "createdAt") then Num (Task.createdAt t)
  else if bool_decide (f = "updatedAt") then Num (Task.updatedAt t)
  else Null.

(** The operators the routes use in their filter objects. *)
Inductive Cond :=
| Is (v : Value)                 (* field: v *)
| Ne (v : Value)                 (* field: { $ne: v } *)
| In (vs : list Value)           (* field: { $in: vs } *)
| Lt (d : Z)                     (* field: { $lt: d } *)
| Gte (d : Z)                    (* field: { $gte: d } *)
| RegexI (pattern : string).     (* field: { $regex: pattern, $options: 'i' } *)

(** The value stored under one key of a filter object: a condition on
    the field the key names, or, under the key [$or], alternatives. *)
Inductive Clause :=
| On (c : Cond)
| AnyOf (alts : list (string * Cond)).

(** A filter object: a JavaScript object, assigned key by key. *)
Abbreviation Filter := (gmap string Clause).

Definition findById {A} (id : ObjectId) (c : gmap ObjectId A) : option A := c !! id.

Definition findWhere {A} (q : A → bool) (c : gmap ObjectId A) : list (ObjectId * A) :=
  List.filter (λ kv, q kv.2) (map_to_list c).

Definition deleteWhere {A} (q : A → bool) (c : gmap ObjectId A) : gmap ObjectId A :=
  filter (λ kv, q kv.2 = false) c.

Definition findByIdAndDelete {A} (id : ObjectId) (c : gmap ObjectId A) : gmap ObjectId A :=
  delete id c.

(** [$group: { _id: '$key', count: { $sum: 1 } }]: one pass over the
    matched documents, one counter per key. *)
Fixpoint bump (k : Value) (acc : list (Value * nat)) : list (Value * nat) :=
  match acc with
  | [] => [(k, 1%nat)]
  | (k', n) :: rest =>
      if bool_decide (k' = k) then (k', S n) :: rest else (k', n) :: bump k rest
  end.

Definition groupCount {A} (key : A → Value) (docs : list A) : list (Value * nat) :=
  foldl (λ acc d, bump (key d) acc) [] docs.

Definition sumCounts (g : list (Value * nat)) : nat :=
  foldr (λ kn s, (kn.2 + s)%nat) 0%nat g.

(** [.sort({ field: -1 })] *)
Definition newerFirst (stampOf : Task.t → Date) : relation (ObjectId * Task.t) :=
  λ a b, stampOf b.2 ≤ stampOf a.2.

#[global] Instance newerFirst_dec stampOf : RelDecision (newerFirst stampOf).
Proof. intros a b. unfold newerFirst. apply _. Defined.

Definition sortDesc (stampOf : Task.t → Date) (l : list (ObjectId * Task.t)) :
    list (ObjectId * Task.t) :=
  merge_sort (newerFirst stampOf) l.

(** ** Replies *)

Record FieldError := mkErr { path : string; msg : string }.

Record Pagination := mkPagination {
  current : Z;
  pages : Z;
  total : Z;
  hasNext : bool;
  hasPrev : bool
}.

Record Dashboard := mkDashboard {
  statusStats : list (Value * nat);
  priorityStats : list (Value * nat);
  assigneeStats : list (Value * nat * string);
  overdueTasks : nat;
  recentActivity : list (ObjectId * Task.t);
  totalTasks : nat
}.

Inductive Payload :=
| Message (message : string)
| Errors (errors : list FieldError)
| WithProject (message : string) (project : Project.t)
| WithTask (message : string) (task : ObjectId * Task.t)
| WithComment (message : string) (comment : Task.Comment)
| OneTask (task : ObjectId * Task.t)
| TaskPage (page : list (ObjectId * Task.t)) (pagination : Pagination)
| Stats (dashboard : Dashboard).

Record Reply := mkReply { code : Z; payload : Payload }.

(** The [catch] branch every route ends with. *)
Definition serverError : Reply := mkReply 500 (Message "Server error").

(** One express-validator chain on one field: an absent optional field
    is skipped; otherwise the check runs (an absent field fails it). *)
Definition chain {V} (path : string) (optional : bool) (v : option V)
    (ok : V → bool) (msg : string) : list FieldError :=
  match v with
  | None => if optional then [] else [mkErr path msg]
  | Some x => if ok x then [] else [mkErr path msg]
  end.

Definition isIn (allowed : list string) (s : string) : bool := bool_decide (s ∈ allowed).

Section Routes.

Set Default Proof Using "Type".

(** Library functions whose definition the routes do not depend on:
    validator.js's ISO 8601 check, the cast of a string to a Date, and a
    case-insensitive regular-expression test (pattern, subject). *)
Variable isISO8601 : string → bool.
Variable castDate : string → option Date.
Variable regexTest : string → string → bool.

(** *** Matching a task against a filter object *)

Definition holds (v : Value) (c : Cond) : bool :=
  match c with
  | Is w => bool_decide (v = w)
  | Ne w => negb (bool_decide (v = w))
  | In ws => bool_decide (v ∈ ws)
  | Lt d => match v with Num n => n <? d | _ => false end
  | Gte d => match v with Num n => d <=? n | _ => false end
  | RegexI pattern => match v with Str s => regexTest pattern s | _ => false end
  end.

Definition clauseHolds (t : Task.t) (k : string) (c : Clause) : bool :=
  match c with
  | On c => holds (taskField t k) c
  | AnyOf alts => existsb (λ fc, holds (taskField t fc.1) fc.2) alts
  end.

Definition matches (q : Filter) (t : Task.t) : bool :=
  forallb (λ kc, clauseHolds t kc.1 kc.2) (map_to_list q).

(** [if (value) filter[key] = ...] *)
Definition setWhen {V} (o : option V) (k : string) (mkClause : V → Clause) (f : Filter) :
    Filter :=
  match o with
  | Some v => <[k := mkClause v]> f
  | None => f
  end.

(** [Project.find({ $or: [{ owner }, { 'members.user' }] }).select('_id')]
    followed by [map(p => p._id)]. *)
Definition accessibleProjectIds (actor : ObjectId) (db : Db) : list ObjectId :=
  (findWhere (Project.hasAccess actor) (projects db)).*1.

(** *** routes/tasks.js: GET / *)

Record TaskQuery := mkTaskQuery {
  q_page : option Z;
  q_limit : option Z;
  q_status : option string;
  q_priority : option string;
  q_project : option string;
  q_assignee : option string;
  q_search : option string
}.

Definition getTasksChecks (q : TaskQuery) : list FieldError :=
  chain "page" true (q_page q) (λ n, 1 <=? n) "Page must be a positive integer"
  ++ chain "limit" true (q_limit q) (λ n, (1 <=? n) && (n <=? 100))
       "Limit must be between 1 and 100"
  ++ chain "status" true (q_status q) (isIn Task.statuses) "Invalid value"
  ++ chain "priority" true (q_priority q) (isIn Task.priorities) "Invalid value"
  ++ chain "project" true (q_project q) isMongoId "Invalid project ID".

(** The filter object as the handler builds it, one assignment after
    the other; the last one stores the accessible projects under the
    key [project]. *)
Definition taskListFilter (q : TaskQuery) (projectIds : list ObjectId) : Filter :=
  let filter : Filter := {[ "isArchived" := On (Is (Bool false)) ]} in
  let filter := setWhen (truthyStr (q_status q)) "status" (λ s, On (Is (Str s))) filter in
  let filter := setWhen (truthyStr (q_priority q)) "priority" (λ s, On (Is (Str s))) filter in
  let filter := setWhen (truthyStr (q_project q)) "project" (λ s, On (Is (Str s))) filter in
  let filter := setWhen (truthyStr (q_assignee q)) "assignee" (λ s, On (Is (Str s))) filter in
  let filter := setWhen (truthyStr (q_search q)) "$or"
                  (λ s, AnyOf [("title", RegexI s); ("description", RegexI s)]) filter in
  <["project" := On (In (Str <$> projectIds))]> filter.

(** [Math.ceil(total / limit)] for a positive [limit]. *)
Definition ceilDiv (total limit : Z) : Z := (total + limit - 1) / limit.

Definition getTasks (actor : ObjectId) (q : TaskQuery) (db : Db) : Reply :=
  match getTasksChecks q with
  | (_ :: _) as errors => mkReply 400 (Errors errors)
  | [] =>
      let page := default 1 (truthyNum (q_page q)) in
      let limit := default 10 (truthyNum (q_limit q)) in
      let skip := (page - 1) * limit in
      let filter := taskListFilter q (accessibleProjectIds actor db) in
      let found := sortDesc Task.createdAt (findWhere (matches filter) (tasks db)) in
      let page_ := take (Z.to_nat limit) (drop (Z.to_nat skip) found) in
      let total := Z.of_nat (List.length (findWhere (matches filter) (tasks db))) in
      mkReply 200
        (TaskPage page_
           (mkPagination page (ceilDiv total limit) total
              (page <? ceilDiv total limit) (1 <? page)))
  end.

(** *** routes/tasks.js: GET /:id *)

Definition getTaskById (actor id : ObjectId) (db : Db) : Reply :=
  match findById id (tasks db) with
  | None => mkReply 404 (Message "Task not found")
  | Some task =>
      match findById (Task.project task) (projects db) with
      | None => serverError
      | Some project =>
          if negb (Project.hasAccess actor project)
          then mkReply 403 (Message "Access denied")
          else mkReply 200 (OneTask (id, task))
      end
  end.

(** *** routes/tasks.js: POST / *)

Record NewTask := mkNewTask {
  n_title : option string;
  n_description : option string;
  n_project : option string;
  n_assignee : option string;
  n_priority : option string;
  n_status : option string;
  n_dueDate : option string;
  n_estimatedHours : option Z;
  n_labels : option (list Task.Label)
}.

Definition postTaskChecks (b : NewTask) : list FieldError :=
  chain "title" false (n_title b) nonEmpty "Title is required"
  ++ chain "project" false (n_project b) isMongoId "Valid project ID is required"
  ++ chain "priority" true (n_priority b) (isIn Task.priorities) "Invalid value"
  ++ chain "status" true (n_status b) (isIn Task.statuses) "Invalid value"
  ++ chain "dueDate" true (n_dueDate b) isISO8601 "Invalid due date format".

(** [task.dueDate = v] for a string or null. *)
Definition assignDueDate (v : option string) (d : Doc Task.t) : Doc Task.t :=
  match v with
  | None => assign "dueDate" Task.dueDate Task.set_dueDate None d
  | Some s =>
      match castDate s with
      | Some when => assign "dueDate" Task.dueDate Task.set_dueDate (Some when) d
      | None => castFailure "dueDate" d
      end
  end.

Definition trimLabel (l : Task.Label) : Task.Label :=
  Task.mkLabel (trim (Task.name l)) (Task.color l).

(** [new Task({ title, description: description || '', ... })] *)
Definition newTask (actor : ObjectId) (b : NewTask) : Doc Task.t :=
  let d := Task.blank in
  let d := assign "title" Task.title Task.set_title (trim (default EmptyString (n_title b))) d in
  let d := assign "description" Task.description Task.set_description
             (trim (default EmptyString (truthyStr (n_description b)))) d in
  let d := assign "project" Task.project Task.set_project (default EmptyString (n_project b)) d in
  let d := assign "assignee" Task.assignee Task.set_assignee (truthyStr (n_assignee b)) d in
  let d := assign "reporter" Task.reporter Task.set_reporter actor d in
  let d := assign "priority" Task.priority Task.set_priority
             (default "medium" (truthyStr (n_priority b))) d in
  let d := assign "status" Task.status Task.set_status
             (default "todo" (truthyStr (n_status b))) d in
  let d := assignDueDate (truthyStr (n_dueDate b)) d in
  let d := assign "estimatedHours" Task.estimatedHours Task.set_estimatedHours
             (truthyNum (n_estimatedHours b)) d in
  assign "labels" Task.labels Task.set_labels (trimLabel <$> default [] (n_labels b)) d.

(** [taskId] is the [_id] the driver gives the new document. *)
Definition postTask (actor taskId : ObjectId) (now : Date) (b : NewTask) (db : Db) : Db * Reply :=
  match postTaskChecks b with
  | (_ :: _) as errors => (db, mkReply 400 (Errors errors))
  | [] =>
      match findById (default EmptyString (n_project b)) (projects db) with
      | None => (db, mkReply 404 (Message "Project not found"))
      | Some projectDoc =>
          if negb (Project.hasAccess actor projectDoc)
          then (db, mkReply 403 (Message "Access denied to this project"))
          else
            match Task.save now (newTask actor b) with
            | None => (db, serverError)
            | Some task =>
                (withTasks (<[taskId := task]> (tasks db)) db,
                 mkReply 201 (WithTask "Task created successfully" (taskId, task)))
            end
      end
  end.

(** *** routes/tasks.js: PUT /:id *)

Record TaskPatch := mkTaskPatch {
  b_title : option string;
  b_description : option string;
  b_assignee : option (option ObjectId);
  b_priority : option string;
  b_status : option string;
  b_dueDate : option string;
  b_estimatedHours : option Z;
  b_progress : option Z;
  b_labels : option (list Task.Label)
}.

Definition putTaskChecks (b : TaskPatch) : list FieldError :=
  chain "title" true (b_title b) nonEmpty "Title cannot be empty"
  ++ chain "priority" true (b_priority b) (isIn Task.priorities) "Invalid value"
  ++ chain "status" true (b_status b) (isIn Task.statuses) "Invalid value"
  ++ chain "dueDate" true (b_dueDate b) isISO8601 "Invalid due date format".

Definition whenPresent {V} (o : option V) (f : V → Doc Task.t → Doc Task.t)
    (d : Doc Task.t) : Doc Task.t :=
  match o with
  | Some v => f v d
  | None => d
  end.

(** [updateFields.forEach(field => { if (req.body[field] !== undefined)
    task[field] = req.body[field]; })] *)
Definition applyPatch (b : TaskPatch) (d : Doc Task.t) : Doc Task.t :=
  let d := whenPresent (b_title b)
             (λ v, assign "title" Task.title Task.set_title (trim v)) d in
  let d := whenPresent (b_description b)
             (λ v, assign "description" Task.description Task.set_description (trim v)) d in
  let d := whenPresent (b_assignee b)
             (assign "assignee" Task.assignee Task.set_assignee) d in
  let d := whenPresent (b_priority b)
             (assign "priority" Task.priority Task.set_priority) d in
  let d := whenPresent (b_status b) (assign "status" Task.status Task.set_status) d in
  let d := whenPresent (b_dueDate b) (λ v, assignDueDate (Some v)) d in
  let d := whenPresent (b_estimatedHours b)
             (λ v, assign "estimatedHours" Task.estimatedHours Task.set_estimatedHours
                     (Some v)) d in
  let d := whenPresent (b_progress b) (assign "progress" Task.progress Task.set_progress) d in
  whenPresent (b_labels b)
    (λ v, assign "labels" Task.labels Task.set_labels (trimLabel <$> v)) d.

Definition putTask (actor id : ObjectId) (now : Date) (b : TaskPatch) (db : Db) : Db * Reply :=
  match putTaskChecks b with
  | (_ :: _) as errors => (db, mkReply 400 (Errors errors))
  | [] =>
      match findById id (tasks db) with
      | None => (db, mkReply 404 (Message "Task not found"))
      | Some task =>
          match findById (Task.project task) (projects db) with
          | None => (db, serverError)
          | Some project =>
              if negb (Project.hasAccess actor project)
              then (db, mkReply 403 (Message "Access denied"))
              else
                match Task.save now (applyPatch b (hydrate task)) with
                | None => (db, serverError)
                | Some task' =>
                    (withTasks (<[id := task']> (tasks db)) db,
                     mkReply 200 (WithTask "Task updated successfully" (id, task')))
                end
          end
      end
  end.

(** *** routes/tasks.js: DELETE /:id *)

Definition deleteTask (actor id : ObjectId) (db : Db) : Db * Reply :=
  match findById id (tasks db) with
  | None => (db, mkReply 404 (Message "Task not found"))
  | Some task =>
      match findById (Task.project task) (projects db) with
      | None => (db, serverError)
      | Some project =>
          let canDelete :=
            bool_decide (Project.owner project = actor)
            || bool_decide (Task.reporter task = actor) in
          if negb canDelete
          then (db, mkReply 403 (Message "Access denied"))
          else (withTasks (findByIdAndDelete id (tasks db)) db,
                mkReply 200 (Message "Task deleted successfully"))
      end
  end.

(** *** routes/tasks.js: POST /:id/comments *)

Definition postTaskComment (actor id : ObjectId) (now : Date) (content : option string)
    (db : Db) : Db * Reply :=
  match chain "content" false content nonEmpty "Comment content is required" with
  | (_ :: _) as errors => (db, mkReply 400 (Errors errors))
  | [] =>
      match findById id (tasks db) with
      | None => (db, mkReply 404 (Message "Task not found"))
      | Some task =>
          match findById (Task.project task) (projects db) with
          | None => (db, serverError)
          | Some project =>
              if negb (Project.hasAccess actor project)
              then (db, mkReply 403 (Message "Access denied"))
              else
                let comment := Task.mkComment actor (trim (default EmptyString content)) now in
                let d := assign "comments" Task.comments Task.set_comments
                           (Task.comments task ++ [comment])%list (hydrate task) in
                match Task.save now d with
                | None => (db, serverError)
                | Some task' =>
                    (withTasks (<[id := task']> (tasks db)) db,
                     mkReply 201 (WithComment "Comment added successfully" comment))
                end
          end
      end
  end.

(** *** routes/tasks.js: GET /analytics/dashboard *)

Definition sevenDays : Z := 7 * 24 * 60 * 60 * 1000.

(** [{ project: { $in: projectIds }, isArchived: false }] *)
Definition liveIn (projectIds : list ObjectId) : Filter :=
  <["isArchived" := On (Is (Bool false))]> {[ "project" := On (In (Str <$> projectIds)) ]}.

Definition statusQuery (projectIds : list ObjectId) : Filter := liveIn projectIds.
Definition priorityQuery (projectIds : list ObjectId) : Filter := liveIn projectIds.
Definition assigneeQuery (projectIds : list ObjectId) : Filter :=
  <["assignee" := On (Ne Null)]> (liveIn projectIds).
Definition overdueQuery (now : Date) (projectIds : list ObjectId) : Filter :=
  <["status" := On (Ne (Str "completed"))]> (<["dueDate" := On (Lt now)]> (liveIn projectIds)).
Definition recentQuery (now : Date) (projectIds : list ObjectId) : Filter :=
  <["updatedAt" := On (Gte (now - sevenDays))]> {[ "project" := On (In (Str <$> projectIds)) ]}.
Definition totalQuery (projectIds : list ObjectId) : Filter := liveIn projectIds.

(** [$lookup] into users, [$unwind], [$project]: a group whose key is
    not a user is dropped. *)
Definition withNames (us : gmap ObjectId User) (g : list (Value * nat)) :
    list (Value * nat * string) :=
  omap (λ kn, match kn.1 with
              | Str uid => (λ u, (kn.1, kn.2, firstName u +:+ " " +:+ lastName u)) <$> us !! uid
              | _ => None
              end) g.

Definition groupBy (field : string) (docs : list (ObjectId * Task.t)) : list (Value * nat) :=
  groupCount (λ kv, taskField kv.2 field) docs.

Definition dashboardOf (now : Date) (projectIds : list ObjectId) (db : Db) : Dashboard :=
  mkDashboard
    (groupBy "status" (findWhere (matches (statusQuery projectIds)) (tasks db)))
    (groupBy "priority" (findWhere (matches (priorityQuery projectIds)) (tasks db)))
    (withNames (users db)
       (groupBy "assignee" (findWhere (matches (assigneeQuery projectIds)) (tasks db))))
    (List.length (findWhere (matches (overdueQuery now projectIds)) (tasks db)))
    (take 10 (sortDesc Task.updatedAt
                (findWhere (matches (recentQuery now projectIds)) (tasks db))))
    (List.length (findWhere (matches (totalQuery projectIds)) (tasks db))).

Definition getDashboard (actor : ObjectId) (now : Date) (db : Db) : Reply :=
  mkReply 200 (Stats (dashboardOf now (accessibleProjectIds actor db) db)).

(** *** routes/projects.js: POST / *)

Record NewProject := mkNewProject {
  np_name : option string;
  np_description : option string;
  np_deadline : option string;
  np_priority : option string;
  np_color : option string;
  np_tags : option (list string)
}.

Definition postProjectChecks (b : NewProject) : list FieldError :=
  chain "name" false (np_name b) nonEmpty "Project name is required"
  ++ chain "deadline" true (np_deadline b) isISO8601 "Invalid deadline format"
  ++ chain "priority" true (np_priority b) (isIn Project.priorities) "Invalid value".

Definition assignDeadline (v : option string) (d : Doc Project.t) : Doc Project.t :=
  match v with
  | None => assign "deadline" Project.deadline Project.set_deadline None d
  | Some s =>
      match castDate s with
      | Some when => assign "deadline" Project.deadline Project.set_deadline (Some when) d
      | None => castFailure "deadline" d
      end
  end.

(** [new Project({ name, description: description || '', ..., owner })] *)
Definition newProject (actor : ObjectId) (b : NewProject) : Doc Project.t :=
  let d := Project.blank in
  let d := assign "name" Project.name Project.set_name (trim (default EmptyString (np_name b))) d in
  let d := assign "description" Project.description Project.set_description
             (trim (default EmptyString (truthyStr (trim <$> np_description b)))) d in
  let d := assignDeadline (truthyStr (np_deadline b)) d in
  let d := assign "priority" Project.priority Project.set_priority
             (default "medium" (truthyStr (np_priority b))) d in
  let d := assign "color" Project.color Project.set_color
             (default "#2196F3" (truthyStr (np_color b))) d in
  let d := assign "tags" Project.tags Project.set_tags (trim <$> default [] (np_tags b)) d in
  assign "owner" Project.owner Project.set_owner actor d.

(** [projectId] is the [_id] the driver gives the new document. *)
Definition postProject (actor projectId : ObjectId) (now : Date) (b : NewProject) (db : Db) :
    Db * Reply :=
  match postProjectChecks b with
  | (_ :: _) as errors => (db, mkReply 400 (Errors errors))
  | [] =>
      match Project.save now (newProject actor b) with
      | None => (db, serverError)
      | Some project =>
          (withProjects (<[projectId := project]> (projects db)) db,
           mkReply 201 (WithProject "Project created successfully" project))
      end
  end.

(** *** routes/projects.js: PUT /:id *)

Record ProjectPatch := mkProjectPatch {
  p_name : option string;
  p_description : option string;
  p_status : option string;
  p_priority : option string;
  p_deadline : option string;
  p_color : option string;
  p_tags : option (list string);
  p_progress : option Z
}.

Definition putProjectChecks (b : ProjectPatch) : list FieldError :=
  chain "name" true (p_name b) nonEmpty "Project name cannot be empty"
  ++ chain "deadline" true (p_deadline b) isISO8601 "Invalid deadline format"
  ++ chain "priority" true (p_priority b) (isIn Project.priorities) "Invalid value"
  ++ chain "status" true (p_status b) (isIn Project.statuses) "Invalid value".

Definition whenGiven {V} (o : option V) (f : V → Doc Project.t → Doc Project.t)
    (d : Doc Project.t) : Doc Project.t :=
  match o with
  | Some v => f v d
  | None => d
  end.

Definition applyProjectPatch (b : ProjectPatch) (d : Doc Project.t) : Doc Project.t :=
  let d := whenGiven (p_name b)
             (λ v, assign "name" Project.name Project.set_name (trim v)) d in
  let d := whenGiven (p_description b)
             (λ v, assign "description" Project.description Project.set_description (trim v)) d in
  let d := whenGiven (p_status b) (assign "status" Project.status Project.set_status) d in
  let d := whenGiven (p_priority b) (assign "priority" Project.priority Project.set_priority) d in
  let d := whenGiven (p_deadline b) (λ v, assignDeadline (Some v)) d in
  let d := whenGiven (p_color b) (assign "color" Project.color Project.set_color) d in
  let d := whenGiven (p_tags b)
             (λ v, assign "tags" Project.tags Project.set_tags (trim <$> v)) d in
  whenGiven (p_progress b) (assign "progress" Project.progress Project.set_progress) d.

Definition putProject (actor id : ObjectId) (now : Date) (b : ProjectPatch) (db : Db) :
    Db * Reply :=
  match putProjectChecks b with
  | (_ :: _) as errors => (db, mkReply 400 (Errors errors))
  | [] =>
      match findById id (projects db) with
      | None => (db, mkReply 404 (Message "Project not found"))
      | Some project =>
          if negb (Project.canManage actor project)
          then (db, mkReply 403 (Message "Access denied"))
          else
            match Project.save now (applyProjectPatch b (hydrate project)) with
            | None => (db, serverError)
            | Some project' =>
                (withProjects (<[id := project']> (projects db)) db,
                 mkReply 200 (WithProject "Project updated successfully" project'))
            end
      end
  end.

(** *** routes/projects.js: DELETE /:id *)

Definition deleteProject (actor id : ObjectId) (db : Db) : Db * Reply :=
  match findById id (projects db) with
  | None => (db, mkReply 404 (Message "Project not found"))
  | Some project =>
      if negb (bool_decide (Project.owner project = actor))
      then (db, mkReply 403 (Message "Only project owner can delete the project"))
      else
        let tasks' := deleteWhere (λ t, bool_decide (Task.project t = id)) (tasks db) in
        let projects' := findByIdAndDelete id (projects db) in
        (mkDb (users db) projects' tasks',
         mkReply 200 (Message "Project and all associated tasks deleted successfully"))
  end.

(** *** routes/projects.js: POST /:id/members *)

Record NewMember := mkNewMember {
  m_userId : option string;
  m_role : option string
}.

Definition postMemberChecks (b : NewMember) : list FieldError :=
  chain "userId" false (m_userId b) isMongoId "Valid user ID is required"
  ++ chain "role" true (m_role b) (isIn ["admin"; "member"; "viewer"]) "Invalid role".

Definition postProjectMember (actor id : ObjectId) (now : Date) (b : NewMember) (db : Db) :
    Db * Reply :=
  match postMemberChecks b with
  | (_ :: _) as errors => (db, mkReply 400 (Errors errors))
  | [] =>
      let userId := default EmptyString (m_userId b) in
      let role := default "member" (m_role b) in
      match findById id (projects db) with
      | None => (db, mkReply 404 (Message "Project not found"))
      | Some project =>
          if negb (Project.canManage actor project)
          then (db, mkReply 403 (Message "Access denied"))
          else
            let existingMember :=
              List.find (λ m, bool_decide (Project.user m = userId)) (Project.members project) in
            if isSome existingMember
            then (db, mkReply 400 (Message "User is already a member of this project"))
            else
              let d := assign "members" Project.members Project.set_members
                         (Project.members project ++ [Project.mkMember userId role now])%list
                         (hydrate project) in
              match Project.save now d with
              | None => (db, serverError)
              | Some project' =>
                  (withProjects (<[id := project']> (projects db)) db,
                   mkReply 200 (WithProject "Member added successfully" project'))
              end
      end
  end.

(** *** routes/projects.js: DELETE /:id/members/:userId *)

Definition deleteProjectMember (actor id userId : ObjectId) (now : Date) (db : Db) :
    Db * Reply :=
  match findById id (projects db) with
  | None => (db, mkReply 404 (Message "Project not found"))
  | Some project =>
      if negb (Project.canManage actor project)
      then (db, mkReply 403 (Message "Access denied"))
      else if bool_decide (userId = Project.owner project)
      then (db, mkReply 400 (Message "Cannot remove project owner"))
      else
        let d := assign "members" Project.members Project.set_members
                   (List.filter (λ m, negb (bool_decide (Project.user m = userId)))
                      (Project.members project))
                   (hydrate project) in
        match Project.save now d with
        | None => (db, serverError)
        | Some project' =>
            (withProjects (<[id := project']> (projects db)) db,
             mkReply 200 (Message "Member removed successfully"))
        end
  end.

(** *** The mutating requests and their effect on the store *)

Inductive Request :=
| PostTask (actor taskId : ObjectId) (now : Date) (b : NewTask)
| PutTask (actor id : ObjectId) (now : Date) (b : TaskPatch)
| DeleteTask (actor id : ObjectId)
| PostTaskComment (actor id : ObjectId) (now : Date) (content : option string)
| PostProject (actor projectId : ObjectId) (now : Date) (b : NewProject)
| PutProject (actor id : ObjectId) (now : Date) (b : ProjectPatch)
| DeleteProject (actor id : ObjectId)
| PostProjectMember (actor id : ObjectId) (now : Date) (b : NewMember)
| DeleteProjectMember (actor id userId : ObjectId) (now : Date).

Definition handle (r : Request) (db : Db) : Db * Reply :=
  match r with
  | PostTask actor taskId now b => postTask actor taskId now b db
  | PutTask actor id now b => putTask actor id now b db
  | DeleteTask actor id => deleteTask actor id db
  | PostTaskComment actor id now content => postTaskComment actor id now content db
  | PostProject actor projectId now b => postProject actor projectId now b db
  | PutProject actor id now b => putProject actor id now b db
  | DeleteProject actor id => deleteProject actor id db
  | PostProjectMember actor id now b => postProjectMember actor id now b db
  | DeleteProjectMember actor id userId now => deleteProjectMember actor id userId now db
  end.

Definition serve (db : Db) (rs : list Request) : Db :=
  foldl (λ db r, (handle r db).1) db rs.

(** *** The virtuals [daysRemaining] of both models

    [Math.ceil((due - today) / (1000 * 60 * 60 * 24))], or null without
    a date. The quotient is taken exactly; the JavaScript number agrees
    with it for every date within some ninety thousand years of now. *)

Definition msPerDay : Z := 1000 * 60 * 60 * 24.

Definition daysRemaining (now : Date) (due : option Date) : option Z :=
  match due with
  | None => None
  | Some d => Some (ceilDiv (d - now) msPerDay)
  end.

(** *** The populated counts [taskCount] and [completedTaskCount] *)

Definition taskCount (id : ObjectId) (db : Db) : nat :=
  List.length (findWhere (λ t, bool_decide (Task.project t = id)) (tasks db)).

Definition completedTaskCount (id : ObjectId) (db : Db) : nat :=
  List.length
    (findWhere (λ t, bool_decide (Task.project t = id)
                     && bool_decide (Task.status t = "completed")) (tasks db)).

(** *** Replies of the read-only project routes *)

Record TaskStats := mkTaskStats {
  st_total : nat;
  st_completed : nat;
  st_inProgress : nat;
  st_todo : nat;
  st_overdue : nat
}.

Record ProjectAnalytics := mkProjectAnalytics {
  an_taskStats : TaskStats;
  an_priorityStats : list (Value * nat);
  an_memberStats : list (Value * nat * string);
  an_recentTasks : list (ObjectId * Task.t);
  an_name : string;
  an_progress : Z;
  an_daysRemaining : option Z
}.

Inductive ReadPayload :=
| Failure (message : string)
| Projects (projects : list (ObjectId * Project.t * nat))
| OneProject (project : Project.t) (taskCount completedTaskCount : nat)
| Analytics (analytics : ProjectAnalytics).

Record ReadReply := mkReadReply { readCode : Z; readPayload : ReadPayload }.

Definition readError : ReadReply := mkReadReply 500 (Failure "Server error").

Definition newerProjectFirst : relation (ObjectId * Project.t) :=
  λ a b, Project.createdAt b.2 ≤ Project.createdAt a.2.

#[global] Instance newerProjectFirst_dec : RelDecision newerProjectFirst.
Proof. intros a b. unfold newerProjectFirst. apply _. Defined.

(** *** routes/projects.js: GET / *)

Definition getProjects (actor : ObjectId) (db : Db) : ReadReply :=
  let found :=
    findWhere (λ p, Project.hasAccess actor p && negb (Project.isArchived p)) (projects db) in
  mkReadReply 200
    (Projects ((λ kv, (kv.1, kv.2, taskCount kv.1 db)) <$> merge_sort newerProjectFirst found)).

(** *** routes/projects.js: GET /:id *)

(** [members.some(member => member.user._id.toString() === id)] on a
    populated project: a member whose user document is gone is null, and
    reading its [_id] throws ([None]). *)
Fixpoint somePopulatedMember (us : gmap ObjectId User) (id : ObjectId)
    (ms : list Project.Member) : option bool :=
  match ms with
  | [] => Some false
  | m :: rest =>
      match us !! Project.user m with
      | None => None
      | Some _ =>
          if bool_decide (Project.user m = id) then Some true
          else somePopulatedMember us id rest
      end
  end.

Definition getProjectById (actor id : ObjectId) (db : Db) : ReadReply :=
  match findById id (projects db) with
  | None => mkReadReply 404 (Failure "Project not found")
  | Some project =>
      match users db !! Project.owner project with
      | None => readError
      | Some _ =>
          let hasAccess :=
            if bool_decide (Project.owner project = actor) then Some true
            else somePopulatedMember (users db) actor (Project.members project) in
          match hasAccess with
          | None => readError
          | Some false => mkReadReply 403 (Failure "Access denied")
          | Some true =>
              mkReadReply 200
                (OneProject project (taskCount id db) (completedTaskCount id db))
          end
      end
  end.

(** *** routes/projects.js: GET /:id/analytics *)

(** [{ project: project._id, isArchived: false }] *)
Definition liveOf (id : ObjectId) : Filter :=
  <["isArchived" := On (Is (Bool false))]> {[ "project" := On (Is (Str id)) ]}.

Definition countWhere (f : Task.t → bool) (docs : list (ObjectId * Task.t)) : nat :=
  List.length (List.filter (λ kv, f kv.2) docs).

(** The [$group] with [_id: null]: one group when a document matched,
    none otherwise; the route falls back to zeros. *)
Definition taskStatsOf (now : Date) (docs : list (ObjectId * Task.t)) : TaskStats :=
  match docs with
  | [] => mkTaskStats 0 0 0 0 0
  | _ =>
      mkTaskStats (List.length docs)
        (countWhere (λ t, bool_decide (Task.status t = "completed")) docs)
        (countWhere (λ t, bool_decide (Task.status t = "in-progress")) docs)
        (countWhere (λ t, bool_decide (Task.status t = "todo")) docs)
        (countWhere (λ t, match Task.dueDate t with
                          | Some due => (due <? now)
                                        && negb (bool_decide (Task.status t = "completed"))
                          | None => false
                          end) docs)
  end.

Definition getProjectAnalytics (actor id : ObjectId) (now : Date) (db : Db) : ReadReply :=
  match findById id (projects db) with
  | None => mkReadReply 404 (Failure "Project not found")
  | Some project =>
      if negb (Project.hasAccess actor project)
      then mkReadReply 403 (Failure "Access denied")
      else
        let live := findWhere (matches (liveOf id)) (tasks db) in
        let assigned :=
          findWhere (matches (<["assignee" := On (Ne Null)]> (liveOf id))) (tasks db) in
        let all := findWhere (matches {[ "project" := On (Is (Str id)) ]}) (tasks db) in
        mkReadReply 200
          (Analytics
             (mkProjectAnalytics
                (taskStatsOf now live)
                (groupBy "priority" live)
                (withNames (users db) (groupBy "assignee" assigned))
                (take 5 (sortDesc Task.updatedAt all))
                (Project.name project)
                (Project.progress project)
                (daysRemaining now (Project.deadline project))))
  end.

(** *** Vocabulary of the properties *)

(** What the pre-save hook reads of a document. *)
Definition lifeView (d : Doc Task.t) : bool * bool * option Date * string :=
  (isNew d, isModified "status" d, Task.completedAt (fields d), Task.status (fields d)).

(** The hook as a function of the stored fields and of the one tracking
    bit it reads. *)
Definition hookEffect (now : Date) (statusModified : bool) (x : Task.t) : Task.t :=
  if statusModified && bool_decide (Task.status x = "completed")
     && negb (isSome (Task.completedAt x))
  then Task.set_progress 100 (Task.set_completedAt (Some now) x)
  else if statusModified && negb (bool_decide (Task.status x = "completed"))
          && isSome (Task.completedAt x)
  then Task.set_completedAt None x
  else x.

(** completedAt is set exactly on completed tasks. *)
Definition completionInv (t : Task.t) : Prop :=
  Task.completedAt t ≠ None ↔ Task.status t = "completed".

Definition allCompletionInv (db : Db) : Prop :=
  map_Forall (λ _ t, completionInv t) (tasks db).

(** The constraints the route checks before it loads the task, written
    as the rule each field has to satisfy. *)
Definition violatesRouteRule (b : TaskPatch) (f : string) : Prop :=
  (f = "title" ∧ b_title b = Some EmptyString)
  ∨ (f = "priority" ∧ ∃ v, b_priority b = Some v ∧ v ∉ Task.priorities)
  ∨ (f = "status" ∧ ∃ v, b_status b = Some v ∧ v ∉ Task.statuses)
  ∨ (f = "dueDate" ∧ ∃ v, b_dueDate b = Some v ∧ isISO8601 v = false).

(** What the membership rules read of a project document. *)
Definition memberView (d : Doc Project.t) : bool * string * list Project.Member :=
  (isNew d, Project.owner (fields d), Project.members (fields d)).





(** Not archived, in one of the given projects. *)
Definition inScope (projectIds : list string) (t : Task.t) : bool :=
  negb (Task.isArchived t) && bool_decide (Task.project t ∈ projectIds).

(** * Properties *)

(** ** Change tracking *)

Lemma fields_assign {A B} `{EqDecision B} p (get : A → B) put v (d : Doc A) :
  fields (assign p get put v d) = put v (fields d).
Proof.
  unfold assign, markModified, isModified; simpl.
  repeat case_match; reflexivity.
Qed.

Lemma isNew_assign {A B} `{EqDecision B} p (get : A → B) put v (d : Doc A) :
  isNew (assign p get put v d) = isNew d.
Proof.
  unfold assign, markModified, isModified; simpl.
  repeat case_match; reflexivity.
Qed.

Lemma isModified_assign {A B} `{EqDecision B} q p (get : A → B) put v (d : Doc A) :
  isModified q (assign p get put v d)
  = isModified q d
    || (bool_decide (q = p) && (isNew d || negb (bool_decide (get (fields d) = v)))).
Proof.
  unfold assign, markModified, isModified; simpl.
  destruct (isNew d || negb (bool_decide (get (fields d) = v))); simpl.
  - destruct (decide (p ∈ modifiedPaths d)) as [Hin|Hin].
    + rewrite (bool_decide_eq_true_2 _ Hin); simpl.
      destruct (decide (q = p)) as [->|Hne].
      * rewrite (bool_decide_eq_true_2 _ Hin). reflexivity.
      * rewrite (bool_decide_eq_false_2 _ Hne), andb_false_l, orb_false_r. reflexivity.
    + rewrite (bool_decide_eq_false_2 _ Hin); simpl.
      rewrite andb_true_r, <- bool_decide_or.
      apply bool_decide_ext. rewrite elem_of_cons.
      split; (intros [Hq|Hq]; [by right | by left]).
  - rewrite andb_false_r, orb_false_r. reflexivity.
Qed.

Lemma isModified_castFailure {A} q p (d : Doc A) :
  isModified q (castFailure p d) = isModified q d.
Proof. reflexivity. Qed.

(** ** Task life cycle *)

Lemma lifeView_assign_other {B} `{EqDecision B} p (get : Task.t → B) put v d :
  p ≠ "status" →
  (∀ x, Task.completedAt (put v x) = Task.completedAt x) →
  (∀ x, Task.status (put v x) = Task.status x) →
  lifeView (assign p get put v d) = lifeView d.
Proof.
  intros Hp Hc Hs. unfold lifeView.
  rewrite isNew_assign, isModified_assign, fields_assign, Hc, Hs.
  rewrite (bool_decide_eq_false_2 ("status" = p)) by congruence.
  rewrite andb_false_l, orb_false_r. reflexivity.
Qed.

Lemma lifeView_assign_status v d :
  lifeView (assign "status" Task.status Task.set_status v d)
  = (isNew d,
     isModified "status" d || (isNew d || negb (bool_decide (Task.status (fields d) = v))),
     Task.completedAt (fields d), v).
Proof.
  unfold lifeView.
  rewrite isNew_assign, isModified_assign, fields_assign.
  rewrite bool_decide_eq_true_2 by reflexivity. reflexivity.
Qed.

Lemma lifeView_assignDueDate v d : lifeView (assignDueDate v d) = lifeView d.
Proof.
  unfold assignDueDate.
  destruct v as [s|]; [destruct (castDate s)|];
    first [ by apply lifeView_assign_other | reflexivity ].
Qed.

Lemma lifeView_whenPresent {V} (o : option V) f d :
  (∀ v d, lifeView (f v d) = lifeView d) →
  lifeView (whenPresent o f d) = lifeView d.
Proof. intros Hf. destruct o; [apply Hf | reflexivity]. Qed.

Ltac frame :=
  first
    [ apply lifeView_assignDueDate
    | apply lifeView_assign_other; [discriminate | reflexivity | reflexivity] ].

Lemma lifeView_applyPatch b d :
  lifeView (applyPatch b d)
  = match b_status b with
    | Some v => (isNew d,
                 isModified "status" d
                   || (isNew d || negb (bool_decide (Task.status (fields d) = v))),
                 Task.completedAt (fields d), v)
    | None => lifeView d
    end.
Proof.
  unfold applyPatch.
  do 4 (rewrite lifeView_whenPresent by (intros; frame)).
  assert (lifeView
            (whenPresent (b_priority b) (assign "priority" Task.priority Task.set_priority)
               (whenPresent (b_assignee b) (assign "assignee" Task.assignee Task.set_assignee)
                  (whenPresent (b_description b)
                     (λ v, assign "description" Task.description Task.set_description (trim v))
                     (whenPresent (b_title b)
                        (λ v, assign "title" Task.title Task.set_title (trim v)) d))))
          = lifeView d) as Hpre.
  { do 4 (rewrite lifeView_whenPresent by (intros; frame)). reflexivity. }
  destruct (b_status b) as [v|]; simpl; [|exact Hpre].
  rewrite lifeView_assign_status.
  unfold lifeView in Hpre. injection Hpre as -> -> -> ->. reflexivity.
Qed.

Lemma fields_preSave now d :
  fields (Task.preSave now d) = hookEffect now (isModified "status" d) (fields d).
Proof.
  unfold Task.preSave, hookEffect.
  destruct (isModified "status" d) eqn:Hm; simpl; [|rewrite Hm; reflexivity].
  destruct (bool_decide (Task.status (fields d) = "completed")) eqn:Hs; simpl.
  - destruct (isSome (Task.completedAt (fields d))) eqn:Hc; simpl.
    + rewrite Hm, Hs. reflexivity.
    + rewrite !isModified_assign, !fields_assign, Hm; simpl.
      rewrite Hs; simpl. rewrite !fields_assign. reflexivity.
  - rewrite Hm, Hs; simpl.
    destruct (isSome (Task.completedAt (fields d))); simpl;
      rewrite ?fields_assign; reflexivity.
Qed.

Lemma save_Some now d t :
  Task.save now d = Some t →
  Task.validate d = [] ∧ t = Task.stamp now (Task.preSave now d).
Proof.
  unfold Task.save. destruct (Task.validate d); [|discriminate].
  intros [= <-]. split; reflexivity.
Qed.

Lemma stamp_life now d :
  Task.status (Task.stamp now d) = Task.status (fields d)
  ∧ Task.completedAt (Task.stamp now d) = Task.completedAt (fields d)
  ∧ Task.progress (Task.stamp now d) = Task.progress (fields d)
  ∧ Task.project (Task.stamp now d) = Task.project (fields d)
  ∧ Task.isArchived (Task.stamp now d) = Task.isArchived (fields d).
Proof. unfold Task.stamp. repeat case_match; repeat split; reflexivity. Qed.

(** The life-cycle fields of a task that [save] wrote. *)
Lemma save_life now d t :
  Task.save now d = Some t →
  let x := hookEffect now (isModified "status" d) (fields d) in
  Task.status t = Task.status x
  ∧ Task.completedAt t = Task.completedAt x
  ∧ Task.progress t = Task.progress x.
Proof.
  intros [_ ->]%save_Some. cbv zeta.
  destruct (stamp_life now (Task.preSave now d)) as (-> & -> & -> & _).
  rewrite fields_preSave. repeat split; reflexivity.
Qed.

Lemma hookEffect_status now m x : Task.status (hookEffect now m x) = Task.status x.
Proof. unfold hookEffect. repeat case_match; reflexivity. Qed.

(** The hook keeps the invariant when the status was not modified, and
    establishes it when it was. *)
Lemma hookEffect_inv now m x :
  (m = false → completionInv x) → completionInv (hookEffect now m x).
Proof.
  unfold hookEffect, completionInv. intros Hkeep.
  destruct m; simpl; [|auto].
  destruct (decide (Task.status x = "completed")) as [Hs|Hs].
  - rewrite (bool_decide_eq_true_2 _ Hs); simpl.
    destruct (Task.completedAt x) eqn:Hc; simpl; rewrite ?Hc; split; done.
  - rewrite (bool_decide_eq_false_2 _ Hs); simpl.
    destruct (Task.completedAt x) eqn:Hc; simpl; rewrite ?Hc; split; done.
Qed.

Lemma save_inv now d t :
  Task.save now d = Some t →
  (isModified "status" d = false → completionInv (fields d)) →
  completionInv t.
Proof.
  intros Hsave Hkeep.
  destruct (save_life _ _ _ Hsave) as (Hs & Hc & _).
  pose proof (hookEffect_inv now _ _ Hkeep) as Hinv.
  unfold completionInv in *. rewrite Hs, Hc. exact Hinv.
Qed.

Lemma lifeView_hydrate x :
  lifeView (hydrate x) = (false, false, Task.completedAt x, Task.status x).
Proof. reflexivity. Qed.

Lemma patch_inv now b x t :
  completionInv x →
  Task.save now (applyPatch b (hydrate x)) = Some t →
  completionInv t.
Proof.
  intros Hx Hsave. apply (save_inv _ _ _ Hsave).
  pose proof (lifeView_applyPatch b (hydrate x)) as Hv.
  destruct (b_status b) as [v|]; unfold lifeView in Hv; simpl in Hv.
  - injection Hv as _ Hm Hc Hs. rewrite Hm. intros Hsame%negb_false_iff.
    apply bool_decide_eq_true_1 in Hsame.
    unfold completionInv. rewrite Hc, Hs, <- Hsame. exact Hx.
  - injection Hv as _ _ Hc Hs. intros _.
    unfold completionInv. rewrite Hc, Hs. exact Hx.
Qed.

Lemma comment_inv now x cs t :
  completionInv x →
  Task.save now (assign "comments" Task.comments Task.set_comments cs (hydrate x)) = Some t →
  completionInv t.
Proof.
  intros Hx Hsave. apply (save_inv _ _ _ Hsave). intros _.
  unfold completionInv. rewrite fields_assign. exact Hx.
Qed.

Lemma lifeView_newTask actor b :
  lifeView (newTask actor b) = (true, true, None, default "todo" (truthyStr (n_status b))).
Proof.
  unfold newTask.
  rewrite lifeView_assign_other by first [discriminate | reflexivity].
  rewrite lifeView_assign_other by first [discriminate | reflexivity].
  rewrite lifeView_assignDueDate, lifeView_assign_status.
  do 5 (rewrite isNew_assign). reflexivity.
Qed.

Lemma newTask_inv now actor b t :
  Task.save now (newTask actor b) = Some t → completionInv t.
Proof.
  intros Hsave. apply (save_inv _ _ _ Hsave).
  pose proof (lifeView_newTask actor b) as Hv. unfold lifeView in Hv.
  injection Hv as _ Hm _ _. rewrite Hm. discriminate.
Qed.

Lemma handle_inv r db : allCompletionInv db → allCompletionInv (handle r db).1.
Proof.
  unfold allCompletionInv. intros Hdb.
  destruct r; simpl;
    unfold postTask, putTask, deleteTask, postTaskComment, postProject, putProject,
      deleteProject, postProjectMember, deleteProjectMember, findById, findByIdAndDelete;
    repeat (case_match; simpl; try exact Hdb).
  - apply map_Forall_insert_2; [|exact Hdb]. eapply newTask_inv; eassumption.
  - apply map_Forall_insert_2; [|exact Hdb].
    eapply patch_inv; [|eassumption]. eapply Hdb; eassumption.
  - apply map_Forall_delete. exact Hdb.
  - apply map_Forall_insert_2; [|exact Hdb].
    eapply comment_inv; [|eassumption]. eapply Hdb; eassumption.
  - unfold deleteWhere. intros ? ? [Hk _]%map_lookup_filter_Some. eapply Hdb; eassumption.
Qed.

Lemma serve_inv rs db : allCompletionInv db → allCompletionInv (serve db rs).
Proof.
  revert db. induction rs as [|r rs IH]; intros db Hdb; [exact Hdb|].
  apply IH, handle_inv, Hdb.
Qed.

Lemma proj_whenPresent {B V} (g : Task.t → B) (o : option V) f d :
  (∀ v d, g (fields (f v d)) = g (fields d)) →
  g (fields (whenPresent o f d)) = g (fields d).
Proof. intros Hf. destruct o; [apply Hf | reflexivity]. Qed.

Ltac untouched :=
  intros; unfold assignDueDate; repeat case_match; rewrite ?fields_assign; reflexivity.

Lemma progress_applyPatch b d :
  Task.progress (fields (applyPatch b d)) = default (Task.progress (fields d)) (b_progress b).
Proof.
  unfold applyPatch.
  rewrite (proj_whenPresent Task.progress (b_labels b)) by untouched.
  destruct (b_progress b) as [v|]; simpl.
  - rewrite fields_assign. reflexivity.
  - do 7 (rewrite (proj_whenPresent Task.progress) by untouched). reflexivity.
Qed.

Lemma putTask_ok actor id now b db :
  code (putTask actor id now b db).2 = 200 →
  ∃ task task',
    tasks db !! id = Some task
    ∧ Task.save now (applyPatch b (hydrate task)) = Some task'
    ∧ (putTask actor id now b db).1 = withTasks (<[id := task']> (tasks db)) db.
Proof.
  unfold putTask, findById.
  repeat case_match; simpl; try discriminate.
  intros _. eauto.
Qed.

(** The task a saved update leaves in the collection. *)
Lemma putTask_stored actor id now b db t t' :
  tasks db !! id = Some t →
  code (putTask actor id now b db).2 = 200 →
  tasks (putTask actor id now b db).1 !! id = Some t' →
  Task.save now (applyPatch b (hydrate t)) = Some t'.
Proof.
  intros Ht Hok Ht'.
  destruct (putTask_ok _ _ _ _ _ Hok) as (task & task' & Hfind & Hsave & Hdb).
  rewrite Hdb in Ht'. simpl in Ht'. rewrite lookup_insert_eq in Ht'.
  congruence.
Qed.

(** Life-cycle fields after a saved update, in terms of the stored task
    and of the request. *)
Lemma patch_life now b t t' :
  Task.save now (applyPatch b (hydrate t)) = Some t' →
  let status' := default (Task.status t) (b_status b) in
  let changed := negb (bool_decide (Task.status t = status')) in
  let progress' := default (Task.progress t) (b_progress b) in
  Task.status t' = status'
  ∧ Task.completedAt t'
    = (if changed && bool_decide (status' = "completed") && negb (isSome (Task.completedAt t))
       then Some now
       else if changed && negb (bool_decide (status' = "completed"))
               && isSome (Task.completedAt t)
       then None else Task.completedAt t)
  ∧ Task.progress t'
    = (if changed && bool_decide (status' = "completed") && negb (isSome (Task.completedAt t))
       then 100 else progress').
Proof.
  intros Hsave. cbv zeta.
  destruct (save_life _ _ _ Hsave) as (Hs & Hc & Hp).
  pose proof (lifeView_applyPatch b (hydrate t)) as Hv.
  pose proof (progress_applyPatch b (hydrate t)) as Hpr.
  assert (isModified "status" (applyPatch b (hydrate t))
          = negb (bool_decide (Task.status t = default (Task.status t) (b_status b)))
          ∧ Task.completedAt (fields (applyPatch b (hydrate t))) = Task.completedAt t
          ∧ Task.status (fields (applyPatch b (hydrate t)))
            = default (Task.status t) (b_status b)) as (Hm & Hc0 & Hs0).
  { destruct (b_status b) as [v|]; unfold lifeView in Hv; simpl in Hv;
      injection Hv as _ Hm Hc0 Hs0; repeat split; try assumption.
    rewrite Hm. simpl. rewrite bool_decide_eq_true_2 by reflexivity. reflexivity. }
  rewrite Hs, Hc, Hp. unfold hookEffect. rewrite Hm, Hc0, Hs0. simpl in Hpr.
  repeat case_match; simpl; rewrite ?Hc0, ?Hs0, ?Hpr; repeat split; reflexivity.
Qed.

(** C1. On every task the routes have stored, after any sequence of
    requests, [completedAt] is set exactly when the status is
    'completed'; a saved update that moves the status into 'completed'
    sets [completedAt] (to the time of the save), and one that moves it
    away from 'completed' clears it. *)
Theorem completedAt_set_iff_completed (rs : list Request) :
  let db := serve emptyDb rs in
  (∀ id t, tasks db !! id = Some t →
     (Task.completedAt t ≠ None ↔ Task.status t = "completed"))
  ∧ (∀ actor id now b t t',
       tasks db !! id = Some t →
       code (putTask actor id now b db).2 = 200 →
       tasks (putTask actor id now b db).1 !! id = Some t' →
       (Task.status t ≠ "completed" → Task.status t' = "completed" →
        Task.completedAt t' = Some now)
       ∧ (Task.status t = "completed" → Task.status t' ≠ "completed" →
          Task.completedAt t' = None)).
Proof.
  cbv zeta.
  assert (allCompletionInv (serve emptyDb rs)) as Hinv.
  { apply serve_inv. intros k t Hk. simpl in Hk. rewrite lookup_empty in Hk. discriminate. }
  split.
  - intros id t Ht. exact (Hinv id t Ht).
  - intros actor id now b t t' Ht Hok Ht'.
    pose proof (putTask_stored _ _ _ _ _ _ _ Ht Hok Ht') as Hsave.
    destruct (patch_life _ _ _ _ Hsave) as (Hs & Hc & _).
    pose proof (Hinv id t Ht) as Hit. unfold completionInv in Hit.
    split.
    + intros Hold Hnew. rewrite Hc. rewrite <- Hs.
      rewrite (bool_decide_eq_true_2 _ Hnew).
      rewrite bool_decide_eq_false_2 by congruence.
      destruct (Task.completedAt t) eqn:Hct; [|reflexivity].
      exfalso. apply Hold, Hit. discriminate.
    + intros Hold Hnew. rewrite Hc. rewrite <- Hs.
      rewrite (bool_decide_eq_false_2 _ Hnew).
      rewrite bool_decide_eq_false_2 by congruence.
      destruct (Task.completedAt t) eqn:Hct; simpl; [reflexivity|].
      exfalso. apply Hit in Hold. congruence.
Qed.

(** C2, as amended. On every task the routes have stored whose status is
    not 'completed', whatever its progress, a saved update that sets
    the status to 'completed' leaves [completedAt] at the time of the
    save and [progress] at exactly 100. *)
Theorem completing_sets_completedAt_and_progress (rs : list Request)
    actor id now b t t' :
  let db := serve emptyDb rs in
  tasks db !! id = Some t →
  Task.status t ≠ "completed" →
  b_status b = Some "completed" →
  code (putTask actor id now b db).2 = 200 →
  tasks (putTask actor id now b db).1 !! id = Some t' →
  Task.status t' = "completed"
  ∧ Task.completedAt t' = Some now
  ∧ Task.progress t' = 100.
Proof.
  cbv zeta. intros Ht Hold Hb Hok Ht'.
  assert (allCompletionInv (serve emptyDb rs)) as Hinv.
  { apply serve_inv. intros k x Hk. simpl in Hk. rewrite lookup_empty in Hk. discriminate. }
  pose proof (putTask_stored _ _ _ _ _ _ _ Ht Hok Ht') as Hsave.
  destruct (patch_life _ _ _ _ Hsave) as (Hs & Hc & Hp).
  rewrite Hb in Hs, Hc, Hp. simpl in Hs, Hc, Hp.
  assert (Task.completedAt t = None) as Hnone.
  { destruct (Task.completedAt t) eqn:Hct; [|reflexivity].
    exfalso. apply Hold, (Hinv id t Ht). congruence. }
  rewrite Hnone in Hc, Hp. simpl in Hc, Hp.
  rewrite (bool_decide_eq_false_2 _ Hold) in Hc, Hp. simpl in Hc, Hp.
  auto.
Qed.

(** C10. When a completed task with progress 100 is saved with a status
    other than 'completed', the save clears nothing but [completedAt]:
    [progress] is what the request left it, that is 100 unless the
    request itself assigns another value. *)
Theorem uncompleting_keeps_progress actor id now b db t t' s :
  tasks db !! id = Some t →
  Task.status t = "completed" →
  Task.progress t = 100 →
  b_status b = Some s →
  s ≠ "completed" →
  code (putTask actor id now b db).2 = 200 →
  tasks (putTask actor id now b db).1 !! id = Some t' →
  Task.status t' = s
  ∧ Task.progress t' = default 100 (b_progress b)
  ∧ (b_progress b = None → Task.progress t' = 100).
Proof.
  intros Ht Hold Hp100 Hb Hs Hok Ht'.
  pose proof (putTask_stored _ _ _ _ _ _ _ Ht Hok Ht') as Hsave.
  destruct (patch_life _ _ _ _ Hsave) as (Hs' & _ & Hp).
  rewrite Hb in Hs', Hp. simpl in Hs', Hp.
  rewrite (bool_decide_eq_false_2 (s = "completed")) in Hp by assumption.
  rewrite andb_false_r in Hp. simpl in Hp. rewrite Hp100 in Hp.
  repeat split; [assumption..|].
  intros Hnone. rewrite Hp, Hnone. reflexivity.
Qed.

(** ** Validation of a task update *)

Lemma elem_of_chain {V} f p (o : option V) ok m :
  f ∈ path <$> chain p true o ok m ↔ f = p ∧ ∃ v, o = Some v ∧ ok v = false.
Proof.
  unfold chain. destruct o as [v|]; simpl.
  - destruct (ok v) eqn:Hok; simpl.
    + rewrite elem_of_nil. split; [contradiction|].
      intros (_ & w & [= <-] & Hw). congruence.
    + rewrite list_elem_of_singleton. split; [eauto|by intros [-> _]].
  - rewrite elem_of_nil. split; [contradiction|]. intros (_ & w & [=] & _).
Qed.

Lemma nonEmpty_false s : nonEmpty s = false ↔ s = EmptyString.
Proof.
  unfold nonEmpty. case_bool_decide; simpl; split; try done; discriminate.
Qed.

Lemma isIn_false l s : isIn l s = false ↔ s ∉ l.
Proof. unfold isIn. apply bool_decide_eq_false. Qed.

Lemma putTaskChecks_complete b f :
  violatesRouteRule b f ↔ f ∈ path <$> putTaskChecks b.
Proof.
  unfold putTaskChecks, violatesRouteRule.
  rewrite !fmap_app, !elem_of_app, !elem_of_chain.
  setoid_rewrite nonEmpty_false. setoid_rewrite isIn_false.
  split.
  - intros [(-> & Ht)|[H|[H|H]]]; eauto 10.
  - intros [(-> & v & Hv & ->)|[H|[H|H]]]; eauto 10.
Qed.

Lemma putTask_not_saved actor id now b db :
  code (putTask actor id now b db).2 ≠ 200 → (putTask actor id now b db).1 = db.
Proof.
  unfold putTask, findById.
  repeat case_match; simpl; intros Hcode; try reflexivity.
  exfalso. apply Hcode. reflexivity.
Qed.

Lemma save_rejects_progress now d :
  inRange 0 100 (Some (Task.progress (fields d))) = false →
  Task.save now d = None.
Proof.
  intros Hr. unfold Task.save.
  assert ("progress" ∈ Task.validate d) as Hin.
  { unfold Task.validate. rewrite !elem_of_app. do 9 right. left.
    unfold checkPath. rewrite Hr. apply list_elem_of_here. }
  destruct (Task.validate d); [|reflexivity].
  apply elem_of_nil in Hin. contradiction.
Qed.

Lemma no_violation_no_error b :
  (¬ ∃ f, violatesRouteRule b f) → putTaskChecks b = [].
Proof.
  intros Hnone. destruct (putTaskChecks b) as [|e es] eqn:He; [reflexivity|].
  exfalso. apply Hnone. exists (path e).
  apply putTaskChecks_complete. rewrite He. simpl. apply list_elem_of_here.
Qed.

(** C9, as amended. An update in which a field breaks a rule the route
    checks (empty title, priority or status outside its enumeration,
    ill-formed due date) is rejected with status 400 and an error list
    naming exactly the fields in violation. An update that passes these
    checks but assigns a progress outside 0..100 is rejected by the save
    with the generic status 500 reply, which lists no field. Every
    rejected update leaves the store as it was. *)
Theorem putTask_rejections actor id now b db :
  ((∃ f, violatesRouteRule b f) →
   ∃ errors,
     putTask actor id now b db = (db, mkReply 400 (Errors errors))
     ∧ ∀ f, violatesRouteRule b f ↔ f ∈ path <$> errors)
  ∧ (∀ t p v,
       (¬ ∃ f, violatesRouteRule b f) →
       tasks db !! id = Some t →
       projects db !! Task.project t = Some p →
       Project.hasAccess actor p = true →
       b_progress b = Some v → ¬ (0 ≤ v ≤ 100) →
       putTask actor id now b db = (db, mkReply 500 (Message "Server error")))
  ∧ (code (putTask actor id now b db).2 ≠ 200 → (putTask actor id now b db).1 = db).
Proof.
  split; [|split].
  - intros [f Hf]. apply putTaskChecks_complete in Hf.
    exists (putTaskChecks b).
    split; [|intros g; apply putTaskChecks_complete].
    unfold putTask. destruct (putTaskChecks b) as [|e es]; [|reflexivity].
    apply elem_of_nil in Hf. contradiction.
  - intros t p v Hnone Ht Hp Hacc Hb Hrange.
    unfold putTask, findById.
    rewrite (no_violation_no_error b Hnone), Ht, Hp, Hacc. simpl.
    rewrite save_rejects_progress; [reflexivity|].
    rewrite progress_applyPatch, Hb. simpl.
    apply andb_false_iff. rewrite !Z.leb_gt. lia.
  - apply putTask_not_saved.
Qed.

(** ** Project membership *)

Lemma memberView_assign {B} `{EqDecision B} p (get : Project.t → B) put v d :
  (∀ x, Project.owner (put v x) = Project.owner x) →
  (∀ x, Project.members (put v x) = Project.members x) →
  memberView (assign p get put v d) = memberView d.
Proof.
  intros Ho Hm. unfold memberView.
  rewrite isNew_assign, fields_assign, Ho, Hm. reflexivity.
Qed.

Lemma memberView_assignDeadline v d : memberView (assignDeadline v d) = memberView d.
Proof.
  unfold assignDeadline.
  destruct v as [s|]; [destruct (castDate s)|];
    first [ by apply memberView_assign | reflexivity ].
Qed.

Lemma memberView_whenGiven {V} (o : option V) f d :
  (∀ v d, memberView (f v d) = memberView d) →
  memberView (whenGiven o f d) = memberView d.
Proof. intros Hf. destruct o; [apply Hf | reflexivity]. Qed.

Ltac member_frame :=
  intros;
  first [ apply memberView_assignDeadline
        | apply memberView_assign; reflexivity ].

Lemma memberView_applyProjectPatch b d :
  memberView (applyProjectPatch b d) = memberView d.
Proof.
  unfold applyProjectPatch.
  do 8 (rewrite memberView_whenGiven by member_frame). reflexivity.
Qed.

Lemma memberView_newProject actor b :
  memberView (newProject actor b) = (true, actor, []).
Proof.
  unfold newProject, memberView.
  rewrite isNew_assign, fields_assign. simpl.
  assert (∀ d, memberView d = memberView Project.blank →
               isNew d = true ∧ Project.members (fields d) = []) as Hblank.
  { intros d Hd. unfold memberView in Hd. simpl in Hd. by injection Hd as -> _ ->. }
  match goal with
  | |- (isNew ?d, _, Project.members (fields ?d)) = _ =>
      destruct (Hblank d) as [-> ->]; [|reflexivity]
  end.
  do 2 (rewrite memberView_assign by reflexivity).
  rewrite memberView_assign by reflexivity.
  rewrite memberView_assignDeadline.
  do 2 (rewrite memberView_assign by reflexivity). reflexivity.
Qed.

Lemma project_save_Some now d p :
  Project.save now d = Some p → p = Project.stamp now (Project.preSave now d).
Proof.
  unfold Project.save. destruct (Project.validate d); [|discriminate].
  by intros [= <-].
Qed.

Lemma project_stamp_members now d :
  Project.owner (Project.stamp now d) = Project.owner (fields d)
  ∧ Project.members (Project.stamp now d) = Project.members (fields d).
Proof. unfold Project.stamp. repeat case_match; split; reflexivity. Qed.

(** Saving a document that was read from the collection: the hook does
    nothing, owner and members are written as they stand. *)
Lemma project_save_loaded now d p :
  isNew d = false →
  Project.save now d = Some p →
  Project.owner p = Project.owner (fields d)
  ∧ Project.members p = Project.members (fields d).
Proof.
  intros Hold ->%project_save_Some.
  destruct (project_stamp_members now (Project.preSave now d)) as [-> ->].
  unfold Project.preSave. rewrite Hold. split; reflexivity.
Qed.

(** Saving a new document: the hook appends the owner unless listed. *)
Lemma project_save_new now actor b p :
  Project.save now (newProject actor b) = Some p →
  Project.owner p = actor
  ∧ Project.members p = [Project.mkMember actor "owner" now].
Proof.
  intros ->%project_save_Some.
  destruct (project_stamp_members now (Project.preSave now (newProject actor b))) as [-> ->].
  pose proof (memberView_newProject actor b) as Hv.
  unfold memberView in Hv. injection Hv as Hn Ho Hm.
  unfold Project.preSave, Project.hasMember. rewrite Hn, Hm, Ho. simpl.
  rewrite fields_assign. simpl. rewrite Ho. split; reflexivity.
Qed.






Lemma loaded_patch_view b (q : Project.t) :
  isNew (applyProjectPatch b (hydrate q)) = false
  ∧ Project.owner (fields (applyProjectPatch b (hydrate q))) = Project.owner q
  ∧ Project.members (fields (applyProjectPatch b (hydrate q))) = Project.members q.
Proof.
  pose proof (memberView_applyProjectPatch b (hydrate q)) as Hv.
  unfold memberView in Hv. simpl in Hv. by injection Hv as -> -> ->.
Qed.







(** C4. Whoever may manage a project (its owner or an admin member),
    asking to remove the project's owner from the members is answered
    with the 'Cannot remove project owner' error and changes nothing. *)
Theorem remove_owner_rejected actor id now db p :
  projects db !! id = Some p →
  Project.canManage actor p = true →
  deleteProjectMember actor id (Project.owner p) now db
  = (db, mkReply 400 (Message "Cannot remove project owner")).
Proof.
  intros Hp Hmanage. unfold deleteProjectMember, findById.
  rewrite Hp, Hmanage. simpl.
  rewrite bool_decide_eq_true_2 by reflexivity. reflexivity.
Qed.

(** ** Cascading deletion *)

(** C5. Deleting a project: anyone but the owner is refused and nothing
    is deleted; for the owner, every task that refers to the project
    and the project itself are gone, the other tasks stay, and reading
    such a task afterwards answers not-found. *)
Theorem deleteProject_cascade actor id db p :
  projects db !! id = Some p →
  (Project.owner p ≠ actor →
   deleteProject actor id db
   = (db, mkReply 403 (Message "Only project owner can delete the project")))
  ∧ (Project.owner p = actor →
     let db' := (deleteProject actor id db).1 in
     code (deleteProject actor id db).2 = 200
     ∧ projects db' !! id = None
     ∧ (∀ tid t, tasks db !! tid = Some t → Task.project t = id →
          tasks db' !! tid = None
          ∧ ∀ reader, getTaskById reader tid db' = mkReply 404 (Message "Task not found"))
     ∧ (∀ tid t, tasks db !! tid = Some t → Task.project t ≠ id →
          tasks db' !! tid = Some t)).
Proof.
  intros Hp. unfold deleteProject, findById. rewrite Hp. split.
  - intros Hne. rewrite (bool_decide_eq_false_2 _ Hne). reflexivity.
  - intros Heq. rewrite (bool_decide_eq_true_2 _ Heq). simpl.
    split; [reflexivity|].
    split; [apply lookup_delete_eq|].
    split.
    + intros tid t Ht Hproj.
      assert (deleteWhere (λ t, bool_decide (Task.project t = id)) (tasks db) !! tid = None)
        as Hgone.
      { unfold deleteWhere. apply map_lookup_filter_None. right.
        intros t' Ht'. simpl. assert (t' = t) as -> by congruence.
        rewrite (bool_decide_eq_true_2 _ Hproj). discriminate. }
      split; [exact Hgone|].
      intros reader. unfold getTaskById, findById. simpl. rewrite Hgone. reflexivity.
    + intros tid t Ht Hproj. unfold deleteWhere.
      apply map_lookup_filter_Some. split; [exact Ht|].
      simpl. apply bool_decide_eq_false_2. exact Hproj.
Qed.

(** ** Queries and aggregates *)

Lemma matches_spec q t :
  matches q t = true ↔ ∀ k c, q !! k = Some c → clauseHolds t k c = true.
Proof.
  unfold matches. rewrite forallb_forall. split.
  - intros H k c Hk. apply (H (k, c)).
    apply list_elem_of_In, elem_of_map_to_list, Hk.
  - intros H [k c] Hin. apply H.
    apply elem_of_map_to_list, list_elem_of_In, Hin.
Qed.

Lemma holds_In_project ids t :
  holds (taskField t "project") (In (Str <$> ids)) = bool_decide (Task.project t ∈ ids).
Proof.
  change (taskField t "project") with (Str (Task.project t)).
  simpl. apply bool_decide_ext. rewrite list_elem_of_fmap. split.
  - intros (y & [= ->] & Hy). exact Hy.
  - intros Hin. eauto.
Qed.

Lemma holds_not_archived t :
  holds (taskField t "isArchived") (Is (Bool false)) = negb (Task.isArchived t).
Proof.
  change (taskField t "isArchived") with (Bool (Task.isArchived t)).
  destruct (Task.isArchived t); reflexivity.
Qed.

Lemma matches_liveIn ids t : matches (liveIn ids) t = inScope ids t.
Proof.
  apply eq_true_iff_eq. rewrite matches_spec. unfold inScope, liveIn.
  rewrite andb_true_iff, <- holds_In_project, <- holds_not_archived. split.
  - intros H. split.
    + apply (H "isArchived" (On (Is (Bool false)))). apply lookup_insert_eq.
    + apply (H "project" (On (In (Str <$> ids)))).
      rewrite lookup_insert_ne by discriminate. apply lookup_singleton_eq.
  - intros [Ha Hp] k c Hk.
    apply lookup_insert_Some in Hk as [[<- <-]|[_ Hk]]; [exact Ha|].
    apply lookup_singleton_Some in Hk as [<- <-]. exact Hp.
Qed.

Lemma findWhere_ext {A} (f g : A → bool) (c : gmap string A) :
  (∀ x, f x = g x) → findWhere f c = findWhere g c.
Proof. intros Hfg. unfold findWhere. apply filter_ext. intros [k x]. apply Hfg. Qed.

Lemma sumCounts_bump k acc : sumCounts (bump k acc) = S (sumCounts acc).
Proof.
  induction acc as [|[k' n] acc IH]; simpl; [reflexivity|].
  case_bool_decide; simpl; [reflexivity|].
  rewrite IH. lia.
Qed.

Lemma sumCounts_groupCount {A} (key : A → Value) (docs : list A) :
  sumCounts (groupCount key docs) = List.length docs.
Proof.
  unfold groupCount.
  assert (∀ acc, sumCounts (foldl (λ acc d, bump (key d) acc) acc docs)
                 = (sumCounts acc + List.length docs)%nat) as Hgen.
  { induction docs as [|d docs IH]; intros acc; simpl; [lia|].
    rewrite IH, sumCounts_bump. lia. }
  rewrite Hgen. reflexivity.
Qed.

(** C8. In the dashboard reply the counts of the status distribution
    add up to [totalTasks], which is the number of tasks that are not
    archived and belong to a project the user can access. *)
Theorem status_counts_sum_to_total actor now db :
  ∃ d,
    getDashboard actor now db = mkReply 200 (Stats d)
    ∧ sumCounts (statusStats d) = totalTasks d
    ∧ totalTasks d
      = List.length (findWhere (inScope (accessibleProjectIds actor db)) (tasks db)).
Proof.
  eexists. split; [reflexivity|]. simpl. split.
  - unfold groupBy. rewrite sumCounts_groupCount. reflexivity.
  - unfold totalQuery.
    rewrite (findWhere_ext _ _ _ (matches_liveIn (accessibleProjectIds actor db))).
    reflexivity.
Qed.

Lemma matches_insert k c (q : Filter) t :
  q !! k = None → matches (<[k := c]> q) t = clauseHolds t k c && matches q t.
Proof.
  intros Hfresh. apply eq_true_iff_eq.
  rewrite andb_true_iff, !matches_spec. split.
  - intros H. split; [apply H, lookup_insert_eq|].
    intros k' c' Hk'. apply H. rewrite lookup_insert_ne; [exact Hk'|].
    intros ->. congruence.
  - intros [Hc Hq] k' c' [[<- <-]|[_ Hk']]%lookup_insert_Some; auto.
Qed.

Lemma elem_of_findWhere {A} (f : A → bool) (c : gmap string A) id x :
  (id, x) ∈ findWhere f c ↔ c !! id = Some x ∧ f x = true.
Proof.
  unfold findWhere. rewrite list_elem_of_In, filter_In, <- list_elem_of_In.
  rewrite elem_of_map_to_list. reflexivity.
Qed.

Lemma elem_of_accessibleProjectIds actor db pid :
  pid ∈ accessibleProjectIds actor db
  ↔ ∃ p, projects db !! pid = Some p ∧ Project.hasAccess actor p = true.
Proof.
  unfold accessibleProjectIds. rewrite list_elem_of_fmap. split.
  - intros ([k p] & -> & Hin). apply elem_of_findWhere in Hin. eauto.
  - intros (p & Hp & Hacc). exists (pid, p). split; [reflexivity|].
    apply elem_of_findWhere. auto.
Qed.

Lemma elem_of_sortDesc stampOf l x : x ∈ sortDesc stampOf l ↔ x ∈ l.
Proof. unfold sortDesc. by rewrite merge_sort_Permutation. Qed.

Lemma matches_overdueQuery now ids t :
  matches (overdueQuery now ids) t
  = negb (bool_decide (Task.status t = "completed"))
    && (match Task.dueDate t with Some due => due <? now | None => false end
        && inScope ids t).
Proof.
  unfold overdueQuery.
  rewrite matches_insert.
  2:{ rewrite lookup_insert_ne by discriminate. unfold liveIn.
      rewrite lookup_insert_ne by discriminate. by rewrite lookup_singleton_ne. }
  rewrite matches_insert.
  2:{ unfold liveIn. rewrite lookup_insert_ne by discriminate.
      by rewrite lookup_singleton_ne. }
  rewrite matches_liveIn. f_equal.
  - change (clauseHolds t "status" (On (Ne (Str "completed"))))
      with (negb (bool_decide (Str (Task.status t) = Str "completed"))).
    f_equal. apply bool_decide_ext. split; congruence.
  - f_equal.
    change (clauseHolds t "dueDate" (On (Lt now)))
      with (match optNum (Task.dueDate t) with Num n => n <? now | _ => false end).
    destruct (Task.dueDate t); reflexivity.
Qed.

Lemma matches_assigneeQuery ids t :
  matches (assigneeQuery ids) t = isSome (Task.assignee t) && inScope ids t.
Proof.
  unfold assigneeQuery. rewrite matches_insert.
  2:{ unfold liveIn. rewrite lookup_insert_ne by discriminate.
      by rewrite lookup_singleton_ne. }
  rewrite matches_liveIn. f_equal.
  change (clauseHolds t "assignee" (On (Ne Null)))
    with (negb (bool_decide (optStr (Task.assignee t) = Null))).
  destruct (Task.assignee t); reflexivity.
Qed.

Lemma matches_recentQuery now ids t :
  matches (recentQuery now ids) t
  = (now - sevenDays <=? Task.updatedAt t) && bool_decide (Task.project t ∈ ids).
Proof.
  unfold recentQuery. rewrite matches_insert by (by rewrite lookup_singleton_ne).
  f_equal. rewrite <- holds_In_project. apply eq_true_iff_eq.
  rewrite matches_spec. split.
  - intros H. apply (H "project" (On (In (Str <$> ids)))). apply lookup_singleton_eq.
  - intros H k c [<- <-]%lookup_singleton_Some. exact H.
Qed.

(** What the dashboard does restrict to live tasks of accessible
    projects: the four counts. The recent-activity list is restricted
    to accessible projects and to the last seven days only. *)
Lemma dashboard_scope actor now db :
  let ids := accessibleProjectIds actor db in
  let live := findWhere (inScope ids) (tasks db) in
  let d := dashboardOf now ids db in
  statusStats d = groupBy "status" live
  ∧ priorityStats d = groupBy "priority" live
  ∧ assigneeStats d
    = withNames (users db)
        (groupBy "assignee"
           (findWhere (λ t, isSome (Task.assignee t) && inScope ids t) (tasks db)))
  ∧ overdueTasks d
    = List.length
        (findWhere (λ t, negb (bool_decide (Task.status t = "completed"))
                         && (match Task.dueDate t with
                             | Some due => due <? now
                             | None => false
                             end && inScope ids t)) (tasks db))
  ∧ totalTasks d = List.length live
  ∧ ∀ id t, (id, t) ∈ recentActivity d →
      tasks db !! id = Some t
      ∧ Task.project t ∈ ids
      ∧ now - sevenDays ≤ Task.updatedAt t.
Proof.
  cbv zeta. unfold dashboardOf, statusQuery, priorityQuery, totalQuery. simpl.
  rewrite (findWhere_ext _ _ _ (matches_liveIn (accessibleProjectIds actor db))).
  rewrite (findWhere_ext _ _ _ (matches_assigneeQuery (accessibleProjectIds actor db))).
  rewrite (findWhere_ext _ _ _ (matches_overdueQuery now (accessibleProjectIds actor db))).
  do 5 (split; [reflexivity|]).
  intros id t (i & H%list_elem_of_lookup_2 & _)%elem_of_take.
  apply elem_of_sortDesc, elem_of_findWhere in H as [Hfind Hm].
  rewrite matches_recentQuery in Hm. apply andb_true_iff in Hm as [Hup Hin].
  split; [exact Hfind|]. split.
  - by apply bool_decide_eq_true_1 in Hin.
  - by apply Z.leb_le in Hup.
Qed.

Lemma lookup_setWhen_ne {V} (o : option V) k k' mkClause (f : Filter) :
  k ≠ k' → setWhen o k mkClause f !! k' = f !! k'.
Proof. intros Hne. destruct o; simpl; [by rewrite lookup_insert_ne|reflexivity]. Qed.

Lemma lookup_setWhen_eq {V} (v : V) k mkClause (f : Filter) :
  setWhen (Some v) k mkClause f !! k = Some (mkClause v).
Proof. apply lookup_insert_eq. Qed.

(** What a page of the task list is restricted to: live tasks of
    accessible projects that pass the status, priority, assignee and
    search filters of the query. *)
Lemma getTasks_sound actor q db page pg :
  getTasks actor q db = mkReply 200 (TaskPage page pg) →
  ∀ id t, (id, t) ∈ page →
    tasks db !! id = Some t
    ∧ Task.isArchived t = false
    ∧ Task.project t ∈ accessibleProjectIds actor db
    ∧ (∀ s, truthyStr (q_status q) = Some s → Task.status t = s)
    ∧ (∀ s, truthyStr (q_priority q) = Some s → Task.priority t = s)
    ∧ (∀ s, truthyStr (q_assignee q) = Some s → Task.assignee t = Some s)
    ∧ (∀ s, truthyStr (q_search q) = Some s →
         regexTest s (Task.title t) || regexTest s (Task.description t) = true).
Proof.
  unfold getTasks. destruct (getTasksChecks q); [|discriminate].
  intros [= <- _] id t (i & Hi & _)%elem_of_take.
  rewrite lookup_drop in Hi. apply list_elem_of_lookup_2 in Hi.
  apply elem_of_sortDesc, elem_of_findWhere in Hi as [Hfind Hm].
  split; [exact Hfind|].
  rewrite matches_spec in Hm. unfold taskListFilter in Hm.
  split; [|split; [|split; [|split; [|split]]]].
  - specialize (Hm "isArchived" (On (Is (Bool false)))).
    rewrite lookup_insert_ne in Hm by discriminate.
    rewrite !lookup_setWhen_ne in Hm by discriminate.
    specialize (Hm (lookup_singleton_eq _ _)).
    simpl in Hm. change (taskField t "isArchived") with (Bool (Task.isArchived t)) in Hm.
    apply bool_decide_eq_true_1 in Hm. congruence.
  - specialize (Hm "project" _ (lookup_insert_eq _ _ _)).
    unfold clauseHolds in Hm. rewrite holds_In_project in Hm.
    by apply bool_decide_eq_true_1 in Hm.
  - intros s Hs. specialize (Hm "status" (On (Is (Str s)))).
    rewrite lookup_insert_ne in Hm by discriminate.
    rewrite !lookup_setWhen_ne in Hm by discriminate.
    rewrite Hs, lookup_setWhen_eq in Hm. specialize (Hm eq_refl).
    simpl in Hm. change (taskField t "status") with (Str (Task.status t)) in Hm.
    apply bool_decide_eq_true_1 in Hm. congruence.
  - intros s Hs. specialize (Hm "priority" (On (Is (Str s)))).
    rewrite lookup_insert_ne in Hm by discriminate.
    rewrite !lookup_setWhen_ne in Hm by discriminate.
    rewrite Hs, lookup_setWhen_eq in Hm. specialize (Hm eq_refl).
    simpl in Hm. change (taskField t "priority") with (Str (Task.priority t)) in Hm.
    apply bool_decide_eq_true_1 in Hm. congruence.
  - intros s Hs. specialize (Hm "assignee" (On (Is (Str s)))).
    rewrite lookup_insert_ne in Hm by discriminate.
    rewrite !lookup_setWhen_ne in Hm by discriminate.
    rewrite Hs, lookup_setWhen_eq in Hm. specialize (Hm eq_refl).
    simpl in Hm. change (taskField t "assignee") with (optStr (Task.assignee t)) in Hm.
    apply bool_decide_eq_true_1 in Hm.
    destruct (Task.assignee t); simpl in Hm; congruence.
  - intros s Hs.
    specialize (Hm "$or" (AnyOf [("title", RegexI s); ("description", RegexI s)])).
    rewrite lookup_insert_ne in Hm by discriminate.
    rewrite Hs, lookup_setWhen_eq in Hm. specialize (Hm eq_refl).
    simpl in Hm. rewrite orb_false_r in Hm. exact Hm.
Qed.

(** ** What each handler does to the store *)

Lemma serve_preserves (P : Db → Prop) rs db :
  (∀ r db, P db → P (handle r db).1) → P db → P (serve db rs).
Proof.
  intros Hstep. revert db. induction rs as [|r rs IH]; intros db Hdb; [exact Hdb|].
  apply IH, Hstep, Hdb.
Qed.

Lemma postTask_effect actor taskId now b db :
  ((postTask actor taskId now b db).1 = db ∧ code (postTask actor taskId now b db).2 ≠ 201)
  ∨ ∃ p t,
      projects db !! default EmptyString (n_project b) = Some p
      ∧ Project.hasAccess actor p = true
      ∧ Task.save now (newTask actor b) = Some t
      ∧ postTask actor taskId now b db
        = (withTasks (<[taskId := t]> (tasks db)) db,
           mkReply 201 (WithTask "Task created successfully" (taskId, t))).
Proof.
  unfold postTask, findById.
  destruct (postTaskChecks b); [|(left; split; [reflexivity|discriminate])].
  destruct (projects db !! _) as [p|] eqn:Hp; [|(left; split; [reflexivity|discriminate])].
  destruct (Project.hasAccess actor p) eqn:Hacc; simpl; [|(left; split; [reflexivity|discriminate])].
  destruct (Task.save now _) as [t|] eqn:Hsave; [|(left; split; [reflexivity|discriminate])].
  right. exists p, t. auto.
Qed.

Lemma putTask_effect actor id now b db :
  ((putTask actor id now b db).1 = db ∧ code (putTask actor id now b db).2 ≠ 200)
  ∨ ∃ t p t',
      tasks db !! id = Some t
      ∧ projects db !! Task.project t = Some p
      ∧ Project.hasAccess actor p = true
      ∧ Task.save now (applyPatch b (hydrate t)) = Some t'
      ∧ putTask actor id now b db
        = (withTasks (<[id := t']> (tasks db)) db,
           mkReply 200 (WithTask "Task updated successfully" (id, t'))).
Proof.
  unfold putTask, findById.
  destruct (putTaskChecks b); [|(left; split; [reflexivity|discriminate])].
  destruct (tasks db !! id) as [t|] eqn:Ht; [|(left; split; [reflexivity|discriminate])].
  destruct (projects db !! _) as [p|] eqn:Hp; [|(left; split; [reflexivity|discriminate])].
  destruct (Project.hasAccess actor p) eqn:Hacc; simpl; [|(left; split; [reflexivity|discriminate])].
  destruct (Task.save now _) as [t'|] eqn:Hsave; [|(left; split; [reflexivity|discriminate])].
  right. exists t, p, t'. auto.
Qed.

Lemma postTaskComment_effect actor id now content db :
  ((postTaskComment actor id now content db).1 = db ∧ code (postTaskComment actor id now content db).2 ≠ 201)
  ∨ ∃ t p t' text,
      content = Some text ∧ text ≠ EmptyString
      ∧ tasks db !! id = Some t
      ∧ projects db !! Task.project t = Some p
      ∧ Project.hasAccess actor p = true
      ∧ Task.save now
          (assign "comments" Task.comments Task.set_comments
             (Task.comments t ++ [Task.mkComment actor (trim text) now])%list (hydrate t))
        = Some t'
      ∧ postTaskComment actor id now content db
        = (withTasks (<[id := t']> (tasks db)) db,
           mkReply 201
             (WithComment "Comment added successfully"
                (Task.mkComment actor (trim text) now))).
Proof.
  unfold postTaskComment, findById, chain.
  destruct content as [text|]; [|(left; split; [reflexivity|discriminate])].
  destruct (nonEmpty text) eqn:Hne; [|(left; split; [reflexivity|discriminate])].
  destruct (tasks db !! id) as [t|] eqn:Ht; [|(left; split; [reflexivity|discriminate])].
  destruct (projects db !! _) as [p|] eqn:Hp; [|(left; split; [reflexivity|discriminate])].
  destruct (Project.hasAccess actor p) eqn:Hacc; simpl; [|(left; split; [reflexivity|discriminate])].
  destruct (Task.save now _) as [t'|] eqn:Hsave; [|(left; split; [reflexivity|discriminate])].
  right. exists t, p, t', text. repeat split; auto.
  intros ->. discriminate.
Qed.

Lemma deleteTask_effect actor id db :
  ((deleteTask actor id db).1 = db ∧ code (deleteTask actor id db).2 ≠ 200)
  ∨ ∃ t p,
      tasks db !! id = Some t
      ∧ projects db !! Task.project t = Some p
      ∧ (Project.owner p = actor ∨ Task.reporter t = actor)
      ∧ deleteTask actor id db
        = (withTasks (delete id (tasks db)) db,
           mkReply 200 (Message "Task deleted successfully")).
Proof.
  unfold deleteTask, findById, findByIdAndDelete.
  destruct (tasks db !! id) as [t|] eqn:Ht; [|(left; split; [reflexivity|discriminate])].
  destruct (projects db !! _) as [p|] eqn:Hp; [|(left; split; [reflexivity|discriminate])].
  destruct (bool_decide (Project.owner p = actor) || bool_decide (Task.reporter t = actor))
    eqn:Hcan; simpl; [|(left; split; [reflexivity|discriminate])].
  right. exists t, p. repeat split; auto.
  apply orb_true_iff in Hcan as [H|H]; apply bool_decide_eq_true_1 in H; auto.
Qed.

Lemma postProject_effect actor pid now b db :
  ((postProject actor pid now b db).1 = db ∧ code (postProject actor pid now b db).2 ≠ 201)
  ∨ ∃ p,
      Project.save now (newProject actor b) = Some p
      ∧ postProject actor pid now b db
        = (withProjects (<[pid := p]> (projects db)) db,
           mkReply 201 (WithProject "Project created successfully" p)).
Proof.
  unfold postProject.
  destruct (postProjectChecks b); [|(left; split; [reflexivity|discriminate])].
  destruct (Project.save now _) as [p|] eqn:Hsave; [|(left; split; [reflexivity|discriminate])].
  right. by exists p.
Qed.

Lemma putProject_effect actor id now b db :
  ((putProject actor id now b db).1 = db ∧ code (putProject actor id now b db).2 ≠ 200)
  ∨ ∃ p p',
      projects db !! id = Some p
      ∧ Project.canManage actor p = true
      ∧ Project.save now (applyProjectPatch b (hydrate p)) = Some p'
      ∧ putProject actor id now b db
        = (withProjects (<[id := p']> (projects db)) db,
           mkReply 200 (WithProject "Project updated successfully" p')).
Proof.
  unfold putProject, findById.
  destruct (putProjectChecks b); [|(left; split; [reflexivity|discriminate])].
  destruct (projects db !! id) as [p|] eqn:Hp; [|(left; split; [reflexivity|discriminate])].
  destruct (Project.canManage actor p) eqn:Hm; simpl; [|(left; split; [reflexivity|discriminate])].
  destruct (Project.save now _) as [p'|] eqn:Hsave; [|(left; split; [reflexivity|discriminate])].
  right. exists p, p'. auto.
Qed.

Lemma deleteProject_effect actor id db :
  ((deleteProject actor id db).1 = db ∧ code (deleteProject actor id db).2 ≠ 200)
  ∨ ∃ p,
      projects db !! id = Some p
      ∧ Project.owner p = actor
      ∧ deleteProject actor id db
        = (mkDb (users db) (delete id (projects db))
             (deleteWhere (λ t, bool_decide (Task.project t = id)) (tasks db)),
           mkReply 200 (Message "Project and all associated tasks deleted successfully")).
Proof.
  unfold deleteProject, findById, findByIdAndDelete.
  destruct (projects db !! id) as [p|] eqn:Hp; [|(left; split; [reflexivity|discriminate])].
  case_bool_decide as Howner; simpl; [|(left; split; [reflexivity|discriminate])].
  right. by exists p.
Qed.

Lemma postProjectMember_effect actor id now b db :
  ((postProjectMember actor id now b db).1 = db ∧ code (postProjectMember actor id now b db).2 ≠ 200)
  ∨ ∃ p p' userId,
      m_userId b = Some userId
      ∧ isMongoId userId = true
      ∧ default "member" (m_role b) ∈ ["admin"; "member"; "viewer"]
      ∧ projects db !! id = Some p
      ∧ Project.canManage actor p = true
      ∧ List.find (λ m, bool_decide (Project.user m = userId)) (Project.members p) = None
      ∧ Project.save now
          (assign "members" Project.members Project.set_members
             (Project.members p
              ++ [Project.mkMember userId (default "member" (m_role b)) now])%list
             (hydrate p))
        = Some p'
      ∧ postProjectMember actor id now b db
        = (withProjects (<[id := p']> (projects db)) db,
           mkReply 200 (WithProject "Member added successfully" p')).
Proof.
  unfold postProjectMember, postMemberChecks, findById, chain.
  destruct (m_userId b) as [userId|] eqn:Hu; [|left; split; [reflexivity|discriminate]].
  destruct (isMongoId userId) eqn:Hid; [|left; split; [reflexivity|discriminate]].
  destruct (m_role b) as [r|] eqn:Hr; simpl;
    [unfold isIn; case_bool_decide as Hin; simpl;
     [|left; split; [reflexivity|discriminate]]|];
    (destruct (projects db !! id) as [p|] eqn:Hp;
       [|left; split; [reflexivity|discriminate]]);
    (destruct (Project.canManage actor p) eqn:Hm; simpl;
       [|left; split; [reflexivity|discriminate]]);
    (destruct (List.find _ (Project.members p)) as [m|] eqn:Hfind; simpl;
       [left; split; [reflexivity|discriminate]|]);
    (destruct (Project.save now _) as [p'|] eqn:Hsave;
       [|left; split; [reflexivity|discriminate]]);
    right; exists p, p', userId; split_and!; auto.
  rewrite !elem_of_cons. auto.
Qed.

Lemma deleteProjectMember_effect actor id userId now db :
  ((deleteProjectMember actor id userId now db).1 = db ∧ code (deleteProjectMember actor id userId now db).2 ≠ 200)
  ∨ ∃ p p',
      projects db !! id = Some p
      ∧ Project.canManage actor p = true
      ∧ userId ≠ Project.owner p
      ∧ Project.save now
          (assign "members" Project.members Project.set_members
             (List.filter (λ m, negb (bool_decide (Project.user m = userId)))
                (Project.members p))
             (hydrate p))
        = Some p'
      ∧ deleteProjectMember actor id userId now db
        = (withProjects (<[id := p']> (projects db)) db,
           mkReply 200 (Message "Member removed successfully")).
Proof.
  unfold deleteProjectMember, findById.
  destruct (projects db !! id) as [p|] eqn:Hp; [|(left; split; [reflexivity|discriminate])].
  destruct (Project.canManage actor p) eqn:Hm; simpl; [|(left; split; [reflexivity|discriminate])].
  case_bool_decide as Hguard; simpl; [(left; split; [reflexivity|discriminate])|].
  destruct (Project.save now _) as [p'|] eqn:Hsave; [|(left; split; [reflexivity|discriminate])].
  right. exists p, p'. auto.
Qed.

(** ** Invariants of the stored documents *)

Lemma checkPath_nil p ok : checkPath p ok = [] → ok = true.
Proof. unfold checkPath. by destruct ok. Qed.

Lemma validate_nil d :
  Task.validate d = [] →
  let x := fields d in
  nonEmpty (Task.title x) = true
  ∧ strlen (Task.title x) ≤ 200
  ∧ strlen (Task.description x) ≤ 2000
  ∧ Task.status x ∈ Task.statuses
  ∧ Task.priority x ∈ Task.priorities
  ∧ nonEmpty (Task.project x) = true
  ∧ nonEmpty (Task.reporter x) = true
  ∧ inRange 0 1000 (Task.estimatedHours x) = true
  ∧ 0 ≤ Task.progress x ≤ 100
  ∧ forallb Task.commentOk (Task.comments x) = true.
Proof.
  unfold Task.validate. cbv zeta. intros H.
  repeat (apply app_eq_nil in H as [? H]).
  repeat match goal with
         | Hc : checkPath _ _ = [] |- _ => apply checkPath_nil in Hc
         end.
  repeat match goal with
         | Hc : _ && _ = true |- _ => apply andb_true_iff in Hc as [? ?]
         | Hc : bool_decide _ = true |- _ => apply bool_decide_eq_true_1 in Hc
         | Hc : (_ <=? _) = true |- _ => apply Z.leb_le in Hc
         end.
  simpl in *.
  repeat match goal with
         | Hc : _ && _ = true |- _ => apply andb_true_iff in Hc as [? ?]
         | Hc : (_ <=? _) = true |- _ => apply Z.leb_le in Hc
         end.
  split_and!; assumption.
Qed.

(** The schema constraints a stored task meets. *)
Definition wellFormedTask (t : Task.t) : Prop :=
  Task.title t ≠ EmptyString
  ∧ strlen (Task.title t) ≤ 200
  ∧ strlen (Task.description t) ≤ 2000
  ∧ Task.status t ∈ Task.statuses
  ∧ Task.priority t ∈ Task.priorities
  ∧ 0 ≤ Task.progress t ≤ 100
  ∧ (∀ h, Task.estimatedHours t = Some h → 0 ≤ h ≤ 1000)
  ∧ (∀ c, c ∈ Task.comments t →
       Task.content c ≠ EmptyString ∧ strlen (Task.content c) ≤ 1000).

Lemma stamp_frame now d :
  let t := Task.stamp now d in
  let x := fields d in
  Task.title t = Task.title x
  ∧ Task.description t = Task.description x
  ∧ Task.priority t = Task.priority x
  ∧ Task.reporter t = Task.reporter x
  ∧ Task.assignee t = Task.assignee x
  ∧ Task.labels t = Task.labels x
  ∧ Task.dueDate t = Task.dueDate x
  ∧ Task.estimatedHours t = Task.estimatedHours x
  ∧ Task.comments t = Task.comments x.
Proof. unfold Task.stamp. repeat case_match; repeat split; reflexivity. Qed.

Lemma hookEffect_frame now m x :
  let y := hookEffect now m x in
  Task.title y = Task.title x
  ∧ Task.description y = Task.description x
  ∧ Task.priority y = Task.priority x
  ∧ Task.project y = Task.project x
  ∧ Task.reporter y = Task.reporter x
  ∧ Task.assignee y = Task.assignee x
  ∧ Task.labels y = Task.labels x
  ∧ Task.dueDate y = Task.dueDate x
  ∧ Task.estimatedHours y = Task.estimatedHours x
  ∧ Task.comments y = Task.comments x
  ∧ Task.isArchived y = Task.isArchived x
  ∧ Task.createdAt y = Task.createdAt x
  ∧ Task.updatedAt y = Task.updatedAt x.
Proof. unfold hookEffect. repeat case_match; repeat split; reflexivity. Qed.

Lemma hookEffect_progress now m x :
  0 ≤ Task.progress x ≤ 100 → 0 ≤ Task.progress (hookEffect now m x) ≤ 100.
Proof. unfold hookEffect. repeat case_match; simpl; lia. Qed.

(** Whatever [save] writes meets the schema. *)
Lemma save_wellFormed now d t : Task.save now d = Some t → wellFormedTask t.
Proof.
  intros [Hv ->]%save_Some.
  apply validate_nil in Hv. cbv zeta in Hv.
  destruct Hv as (Ht & Htl & Hdl & Hs & Hp & _ & _ & Hh & Hpr & Hcs).
  destruct (stamp_life now (Task.preSave now d)) as (Es & _ & Epr & _).
  destruct (stamp_frame now (Task.preSave now d)) as (Et & Ed & Ep & _ & _ & _ & _ & Eh & Ec).
  rewrite fields_preSave in *.
  destruct (hookEffect_frame now (isModified "status" d) (fields d))
    as (Ft & Fd & Fp & _ & _ & _ & _ & _ & Fh & Fc & _).
  unfold wellFormedTask.
  rewrite Et, Ed, Ep, Es, Epr, Eh, Ec, Ft, Fd, Fp, Fh, Fc, hookEffect_status.
  split_and!; try assumption; try (apply hookEffect_progress; assumption).
  - intros E. rewrite E in Ht. discriminate.
  - intros h Hsome. destruct (Task.estimatedHours (fields d)) as [h'|]; [|discriminate].
    injection Hsome as <-. simpl in Hh.
    apply andb_true_iff in Hh as [?%Z.leb_le ?%Z.leb_le]. lia.
  - intros c Hc. rewrite forallb_forall in Hcs. apply list_elem_of_In, Hcs in Hc.
    unfold Task.commentOk in Hc. apply andb_true_iff in Hc as [Hne ?%Z.leb_le].
    split; [|assumption]. intros E. rewrite E in Hne. discriminate.
Qed.

Lemma handle_tasks r db :
  tasks (handle r db).1 = tasks db
  ∨ (∃ id now d t, Task.save now d = Some t ∧ tasks (handle r db).1 = <[id := t]> (tasks db))
  ∨ (∃ id, tasks (handle r db).1 = delete id (tasks db))
  ∨ (∃ id, tasks (handle r db).1
           = deleteWhere (λ t, bool_decide (Task.project t = id)) (tasks db)).
Proof.
  destruct r as [actor taskId now b|actor id now b|actor id|actor id now content
                |actor pid now b|actor id now b|actor id|actor id now b|actor id userId now];
    simpl.
  - destruct (postTask_effect actor taskId now b db) as [[-> _]|(p & t & _ & _ & Hs & ->)];
      [by left|]. right. left. by exists taskId, now, (newTask actor b), t.
  - destruct (putTask_effect actor id now b db) as [[-> _]|(t & p & t' & _ & _ & _ & Hs & ->)];
      [by left|]. right. left. by exists id, now, (applyPatch b (hydrate t)), t'.
  - destruct (deleteTask_effect actor id db) as [[-> _]|(t & p & _ & _ & _ & ->)];
      [by left|]. right. right. left. by exists id.
  - destruct (postTaskComment_effect actor id now content db)
      as [[-> _]|(t & p & t' & text & _ & _ & _ & _ & _ & Hs & ->)]; [by left|].
    right. left. by eexists id, now, _, t'.
  - destruct (postProject_effect actor pid now b db) as [[-> _]|(p & _ & ->)]; by left.
  - destruct (putProject_effect actor id now b db) as [[-> _]|(p & p' & _ & _ & _ & ->)]; by left.
  - destruct (deleteProject_effect actor id db) as [[-> _]|(p & _ & _ & ->)]; [by left|].
    right. right. right. by exists id.
  - destruct (postProjectMember_effect actor id now b db)
      as [[-> _]|(p & p' & u & _ & _ & _ & _ & _ & _ & _ & ->)]; by left.
  - destruct (deleteProjectMember_effect actor id userId now db)
      as [[-> _]|(p & p' & _ & _ & _ & _ & ->)]; by left.
Qed.

(** X1. Every task the routes have stored meets the schema: the title is
    not empty and at most 200 characters, the description at most 2000,
    status and priority are in their enumerations, progress is in 0..100,
    estimated hours (when set) in 0..1000, and every comment is non-empty
    and at most 1000 characters. *)
Theorem stored_tasks_wellFormed (rs : list Request) id t :
  tasks (serve emptyDb rs) !! id = Some t → wellFormedTask t.
Proof.
  revert id t.
  change (map_Forall (λ _ t, wellFormedTask t) (tasks (serve emptyDb rs))).
  apply (serve_preserves (λ db, map_Forall (λ _ t, wellFormedTask t) (tasks db))).
  - intros r db Hdb.
    destruct (handle_tasks r db)
      as [->|[(id & now & d & t & Hs & ->)|[(id & ->)|(id & ->)]]].
    + exact Hdb.
    + apply map_Forall_insert_2; [|exact Hdb]. eapply save_wellFormed, Hs.
    + apply map_Forall_delete, Hdb.
    + unfold deleteWhere. intros k x [Hk _]%map_lookup_filter_Some. exact (Hdb k x Hk).
  - intros k x Hk. simpl in Hk. rewrite lookup_empty in Hk. discriminate.
Qed.

(** ** No task without its project *)

Definition noOrphan (db : Db) : Prop :=
  ∀ id t, tasks db !! id = Some t → is_Some (projects db !! Task.project t).

Lemma project_newTask actor b :
  Task.project (fields (newTask actor b)) = default EmptyString (n_project b).
Proof.
  unfold newTask. rewrite !fields_assign. simpl.
  unfold assignDueDate. repeat case_match; rewrite ?fields_assign; simpl;
    rewrite ?fields_assign; reflexivity.
Qed.

Lemma save_project now d t :
  Task.save now d = Some t → Task.project t = Task.project (fields d).
Proof.
  intros [_ ->]%save_Some.
  destruct (stamp_life now (Task.preSave now d)) as (_ & _ & _ & -> & _).
  rewrite fields_preSave.
  by destruct (hookEffect_frame now (isModified "status" d) (fields d)) as (_ & _ & _ & -> & _).
Qed.

Lemma project_applyPatch b d :
  Task.project (fields (applyPatch b d)) = Task.project (fields d).
Proof.
  unfold applyPatch.
  do 9 (rewrite (proj_whenPresent Task.project) by untouched). reflexivity.
Qed.

Lemma handle_noOrphan r db : noOrphan db → noOrphan (handle r db).1.
Proof.
  intros Hdb.
  destruct r as [actor taskId now b|actor id now b|actor id|actor id now content
                |actor pid now b|actor id now b|actor id|actor id now b|actor id userId now];
    simpl.
  - destruct (postTask_effect actor taskId now b db) as [[-> _]|(p & t & Hp & _ & Hs & ->)];
      [exact Hdb|].
    intros k x Hk. simpl in *.
    destruct (decide (taskId = k)) as [->|Hne].
    + rewrite lookup_insert_eq in Hk. injection Hk as <-.
      rewrite (save_project _ _ _ Hs), project_newTask, Hp. eauto.
    + rewrite lookup_insert_ne in Hk by exact Hne. exact (Hdb k x Hk).
  - destruct (putTask_effect actor id now b db)
      as [[-> _]|(t & p & t' & Ht & Hp & _ & Hs & ->)]; [exact Hdb|].
    intros k x Hk. simpl in *.
    destruct (decide (id = k)) as [->|Hne].
    + rewrite lookup_insert_eq in Hk. injection Hk as <-.
      rewrite (save_project _ _ _ Hs), project_applyPatch. simpl. rewrite Hp. eauto.
    + rewrite lookup_insert_ne in Hk by exact Hne. exact (Hdb k x Hk).
  - destruct (deleteTask_effect actor id db) as [[-> _]|(t & p & _ & _ & _ & ->)];
      [exact Hdb|].
    intros k x Hk. simpl in *. apply lookup_delete_Some in Hk as [_ Hk]. exact (Hdb k x Hk).
  - destruct (postTaskComment_effect actor id now content db)
      as [[-> _]|(t & p & t' & text & _ & _ & Ht & Hp & _ & Hs & ->)]; [exact Hdb|].
    intros k x Hk. simpl in *.
    destruct (decide (id = k)) as [->|Hne].
    + rewrite lookup_insert_eq in Hk. injection Hk as <-.
      rewrite (save_project _ _ _ Hs), fields_assign. simpl. rewrite Hp. eauto.
    + rewrite lookup_insert_ne in Hk by exact Hne. exact (Hdb k x Hk).
  - destruct (postProject_effect actor pid now b db) as [[-> _]|(p & _ & ->)]; [exact Hdb|].
    intros k x Hk. simpl in *. apply lookup_insert_is_Some'. right. exact (Hdb k x Hk).
  - destruct (putProject_effect actor id now b db) as [[-> _]|(p & p' & _ & _ & _ & ->)];
      [exact Hdb|].
    intros k x Hk. simpl in *. apply lookup_insert_is_Some'. right. exact (Hdb k x Hk).
  - destruct (deleteProject_effect actor id db) as [[-> _]|(p & _ & _ & ->)]; [exact Hdb|].
    intros k x Hk. simpl in *. unfold deleteWhere in Hk.
    apply map_lookup_filter_Some in Hk as [Hk Hx]. simpl in Hx.
    apply bool_decide_eq_false_1 in Hx.
    rewrite lookup_delete_ne by congruence. exact (Hdb k x Hk).
  - destruct (postProjectMember_effect actor id now b db)
      as [[-> _]|(p & p' & u & _ & _ & _ & _ & _ & _ & _ & ->)]; [exact Hdb|].
    intros k x Hk. simpl in *. apply lookup_insert_is_Some'. right. exact (Hdb k x Hk).
  - destruct (deleteProjectMember_effect actor id userId now db)
      as [[-> _]|(p & p' & _ & _ & _ & _ & ->)]; [exact Hdb|].
    intros k x Hk. simpl in *. apply lookup_insert_is_Some'. right. exact (Hdb k x Hk).
Qed.

(** X2. After any sequence of requests every stored task belongs to a
    project that is still stored (deleting a project takes its tasks
    along, and a task is only created in an existing project); hence
    reading a task never ends in the route's 500 branch: it answers 404
    exactly when the task is missing, and otherwise 403 or 200. *)
Theorem tasks_never_orphaned (rs : list Request) :
  let db := serve emptyDb rs in
  (∀ id t, tasks db !! id = Some t → is_Some (projects db !! Task.project t))
  ∧ (∀ reader id,
       code (getTaskById reader id db) ≠ 500
       ∧ (code (getTaskById reader id db) = 404 ↔ tasks db !! id = None)).
Proof.
  cbv zeta.
  assert (noOrphan (serve emptyDb rs)) as Hinv.
  { apply (serve_preserves noOrphan); [apply handle_noOrphan|].
    intros k x Hk. simpl in Hk. rewrite lookup_empty in Hk. discriminate. }
  split; [exact Hinv|].
  intros reader id. unfold getTaskById, findById.
  destruct (tasks (serve emptyDb rs) !! id) as [t|] eqn:Ht; simpl.
  - destruct (Hinv id t Ht) as [p Hp]. rewrite Hp.
    destruct (Project.hasAccess reader p); simpl; split; try discriminate; split; discriminate.
  - split; [discriminate|]. split; reflexivity.
Qed.

(** ** Members of stored projects *)

(** Users are listed once, the owner is listed, the role 'owner' marks
    the owner's entry and no other, and every role is in the schema's
    enumeration. *)
Definition membersInOrder (p : Project.t) : Prop :=
  NoDup (Project.user <$> Project.members p)
  ∧ Project.owner p ∈ Project.user <$> Project.members p
  ∧ (∀ m, m ∈ Project.members p →
       (Project.role m = "owner" ↔ Project.user m = Project.owner p))
  ∧ (∀ m, m ∈ Project.members p → Project.role m ∈ Project.roles).

Lemma membersInOrder_ext p p' :
  Project.owner p' = Project.owner p →
  Project.members p' = Project.members p →
  membersInOrder p → membersInOrder p'.
Proof. unfold membersInOrder. intros -> ->. auto. Qed.

Lemma find_none_user userId (ms : list Project.Member) :
  List.find (λ m, bool_decide (Project.user m = userId)) ms = None ↔
  userId ∉ Project.user <$> ms.
Proof.
  rewrite list_elem_of_fmap. split.
  - intros Hfind (m & -> & Hin).
    apply list_elem_of_In in Hin.
    pose proof (find_none _ _ Hfind m Hin) as Hne. simpl in Hne.
    by apply bool_decide_eq_false_1 in Hne.
  - intros Hnot. destruct (List.find _ ms) as [m|] eqn:Hfind; [|reflexivity].
    apply find_some in Hfind as [Hin Hu]. apply bool_decide_eq_true_1 in Hu.
    exfalso. apply Hnot. exists m. split; [done|]. by apply list_elem_of_In.
Qed.

Lemma membersInOrder_add p p' userId role now :
  membersInOrder p →
  userId ∉ Project.user <$> Project.members p →
  role ∈ ["admin"; "member"; "viewer"] →
  Project.owner p' = Project.owner p →
  Project.members p' = (Project.members p ++ [Project.mkMember userId role now])%list →
  membersInOrder p'.
Proof.
  intros (Hnd & Hown & Hrole & Henum) Hfresh Hr Ho Hm.
  assert (userId ≠ Project.owner p) as Hne by (intros ->; contradiction).
  assert (role ≠ "owner" ∧ role ∈ Project.roles) as [Hr1 Hr2].
  { rewrite !elem_of_cons in Hr. unfold Project.roles. rewrite !elem_of_cons.
    destruct Hr as [->|[->|[->|Hr]]]; [split; [discriminate|auto]..|].
    by apply elem_of_nil in Hr. }
  unfold membersInOrder. rewrite Ho, Hm, fmap_app. simpl. split_and!.
  - apply NoDup_app. split; [exact Hnd|]. split; [|apply NoDup_singleton].
    intros u Hu ->%list_elem_of_singleton. contradiction.
  - apply elem_of_app. by left.
  - intros m [Hin| ->%list_elem_of_singleton]%elem_of_app; [by apply Hrole|].
    simpl. split; [contradiction|congruence].
  - intros m [Hin| ->%list_elem_of_singleton]%elem_of_app; [by apply Henum|]. exact Hr2.
Qed.

Lemma membersInOrder_remove p p' userId :
  membersInOrder p →
  userId ≠ Project.owner p →
  Project.owner p' = Project.owner p →
  Project.members p'
  = List.filter (λ m, negb (bool_decide (Project.user m = userId))) (Project.members p) →
  membersInOrder p'.
Proof.
  intros (Hnd & Hown & Hrole & Henum) Hne Ho Hm.
  assert (∀ m, m ∈ Project.members p' ↔ m ∈ Project.members p ∧ Project.user m ≠ userId)
    as Hin.
  { intros m. rewrite Hm, !list_elem_of_In, filter_In, negb_true_iff.
    by rewrite bool_decide_eq_false. }
  unfold membersInOrder. rewrite Ho. split_and!.
  - rewrite Hm. clear -Hnd. induction (Project.members p) as [|m ms IH]; simpl; [constructor|].
    simpl in Hnd. apply NoDup_cons in Hnd as [Hm Hnd].
    destruct (negb _); simpl; [|by apply IH].
    apply NoDup_cons. split; [|by apply IH].
    intros (x & Hx & Hxin)%list_elem_of_fmap. apply Hm, list_elem_of_fmap.
    exists x. split; [done|]. apply list_elem_of_In in Hxin. apply filter_In in Hxin as [? _].
    by apply list_elem_of_In.
  - apply list_elem_of_fmap in Hown as (m & Hu & Hmin). apply list_elem_of_fmap.
    exists m. split; [done|]. apply Hin. split; [done|]. congruence.
  - intros m [Hmin _]%Hin. by apply Hrole.
  - intros m [Hmin _]%Hin. by apply Henum.
Qed.

Lemma handle_membersInOrder r db :
  map_Forall (λ _ p, membersInOrder p) (projects db) →
  map_Forall (λ _ p, membersInOrder p) (projects (handle r db).1).
Proof.
  intros Hdb.
  destruct r as [actor taskId now b|actor id now b|actor id|actor id now content
                |actor pid now b|actor id now b|actor id|actor id now b|actor id userId now];
    simpl.
  - by destruct (postTask_effect actor taskId now b db) as [[-> _]|(p & t & _ & _ & _ & ->)].
  - by destruct (putTask_effect actor id now b db) as [[-> _]|(t & p & t' & _ & _ & _ & _ & ->)].
  - by destruct (deleteTask_effect actor id db) as [[-> _]|(t & p & _ & _ & _ & ->)].
  - by destruct (postTaskComment_effect actor id now content db)
      as [[-> _]|(t & p & t' & text & _ & _ & _ & _ & _ & _ & ->)].
  - destruct (postProject_effect actor pid now b db) as [[-> _]|(p & Hs & ->)]; [exact Hdb|].
    simpl. apply map_Forall_insert_2; [|exact Hdb].
    destruct (project_save_new _ _ _ _ Hs) as [Ho Hm].
    unfold membersInOrder. rewrite Ho, Hm. simpl. split_and!.
    + apply NoDup_singleton.
    + apply list_elem_of_here.
    + by intros m ->%list_elem_of_singleton.
    + intros m ->%list_elem_of_singleton. simpl. apply list_elem_of_here.
  - destruct (putProject_effect actor id now b db) as [[-> _]|(p & p' & Hp & _ & Hs & ->)];
      [exact Hdb|].
    simpl. apply map_Forall_insert_2; [|exact Hdb].
    destruct (loaded_patch_view b p) as (Hn & Hown & Hmem).
    destruct (project_save_loaded _ _ _ Hn Hs) as [Ho' Hm'].
    apply (membersInOrder_ext p); [congruence..|]. exact (Hdb id p Hp).
  - destruct (deleteProject_effect actor id db) as [[-> _]|(p & _ & _ & ->)]; [exact Hdb|].
    simpl. apply map_Forall_delete, Hdb.
  - destruct (postProjectMember_effect actor id now b db)
      as [[-> _]|(p & p' & u & _ & _ & Hrole & Hp & _ & Hfind & Hs & ->)]; [exact Hdb|].
    simpl. apply map_Forall_insert_2; [|exact Hdb].
    apply project_save_loaded in Hs as [Ho' Hm']; [|by rewrite isNew_assign].
    rewrite fields_assign in Ho', Hm'. simpl in Ho', Hm'.
    eapply membersInOrder_add; [exact (Hdb id p Hp)| |exact Hrole|exact Ho'|exact Hm'].
    by apply find_none_user.
  - destruct (deleteProjectMember_effect actor id userId now db)
      as [[-> _]|(p & p' & Hp & _ & Hne & Hs & ->)]; [exact Hdb|].
    simpl. apply map_Forall_insert_2; [|exact Hdb].
    apply project_save_loaded in Hs as [Ho' Hm']; [|by rewrite isNew_assign].
    rewrite fields_assign in Ho', Hm'. simpl in Ho', Hm'.
    eapply membersInOrder_remove; [exact (Hdb id p Hp)|exact Hne|exact Ho'|exact Hm'].
Qed.

(** X3. In every project the routes have stored, after any sequence of
    requests, no user is listed twice among the members, the owner is
    listed, the entry with role 'owner' is the owner's and the only one,
    and every role is one of owner, admin, member, viewer. *)
Theorem stored_members_in_order (rs : list Request) id p :
  projects (serve emptyDb rs) !! id = Some p →
  NoDup (Project.user <$> Project.members p)
  ∧ Project.owner p ∈ Project.user <$> Project.members p
  ∧ (∀ m, m ∈ Project.members p →
       (Project.role m = "owner" ↔ Project.user m = Project.owner p))
  ∧ (∀ m, m ∈ Project.members p → Project.role m ∈ Project.roles).
Proof.
  revert id p.
  change (map_Forall (λ _ p, membersInOrder p) (projects (serve emptyDb rs))).
  apply (serve_preserves (λ db, map_Forall (λ _ p, membersInOrder p) (projects db))).
  - apply handle_membersInOrder.
  - intros k x Hk. simpl in Hk. rewrite lookup_empty in Hk. discriminate.
Qed.

(** X4. Adding a user who is already a member is refused: for a
    well-formed request by a manager of the project the reply is 400
    'User is already a member of this project' and the store is left as
    it was. *)
Theorem duplicate_member_rejected actor id now b db p userId :
  projects db !! id = Some p →
  Project.canManage actor p = true →
  postMemberChecks b = [] →
  m_userId b = Some userId →
  userId ∈ Project.user <$> Project.members p →
  postProjectMember actor id now b db
  = (db, mkReply 400 (Message "User is already a member of this project")).
Proof.
  intros Hp Hman Hchk Hu Hin. unfold postProjectMember, findById.
  rewrite Hchk, Hp, Hman, Hu. simpl.
  destruct (List.find _ (Project.members p)) as [m|] eqn:Hfind; [reflexivity|].
  apply find_none_user in Hfind. contradiction.
Qed.


Lemma filter_out_absent userId (ms : list Project.Member) :
  userId ∉ Project.user <$> ms →
  List.filter (λ m, negb (bool_decide (Project.user m = userId))) ms = ms.
Proof.
  induction ms as [|m ms IH]; simpl; [reflexivity|].
  rewrite not_elem_of_cons. intros [Hne Hrest].
  rewrite bool_decide_eq_false_2 by congruence. simpl. by rewrite IH.
Qed.

(** X5. When a member is added and then removed again, the members list
    and the owner of the project are what they were before the two
    requests. *)
Theorem add_then_remove_member actor id now b db userId actor' now' p :
  projects db !! id = Some p →
  m_userId b = Some userId →
  code (postProjectMember actor id now b db).2 = 200 →
  let db1 := (postProjectMember actor id now b db).1 in
  code (deleteProjectMember actor' id userId now' db1).2 = 200 →
  ∃ p2, projects (deleteProjectMember actor' id userId now' db1).1 !! id = Some p2
        ∧ Project.members p2 = Project.members p
        ∧ Project.owner p2 = Project.owner p.
Proof.
  intros Hp Hu Hadd. cbv zeta.
  destruct (postProjectMember_effect actor id now b db)
    as [[_ Hno]|(q & p1 & u & Hu' & _ & _ & Hq & _ & Hfind & Hs & Heq)]; [contradiction|].
  rewrite Heq. simpl. intros Hdel.
  assert (q = p) as -> by congruence. assert (u = userId) as -> by congruence.
  apply project_save_loaded in Hs as [Ho1 Hm1]; [|by rewrite isNew_assign].
  rewrite fields_assign in Ho1, Hm1. simpl in Ho1, Hm1.
  destruct (deleteProjectMember_effect actor' id userId now'
              (withProjects (<[id := p1]> (projects db)) db))
    as [[_ Hno]|(q1 & p2 & Hq1 & _ & _ & Hs2 & Heq2)]; [contradiction|].
  rewrite Heq2. simpl. rewrite lookup_insert_eq. exists p2. split; [reflexivity|].
  simpl in Hq1. rewrite lookup_insert_eq in Hq1. injection Hq1 as <-.
  apply project_save_loaded in Hs2 as [Ho2 Hm2]; [|by rewrite isNew_assign].
  rewrite fields_assign in Ho2, Hm2. simpl in Ho2, Hm2.
  split; [|congruence].
  rewrite Hm2, Hm1, List.filter_app. simpl.
  rewrite bool_decide_eq_true_2 by reflexivity. simpl. rewrite app_nil_r.
  apply filter_out_absent. by apply find_none_user.
Qed.

(** X6. Removing a user who is not a member of the project is answered
    like a removal, with the members list and the owner as they were. *)
Theorem remove_absent_member actor id userId now db p :
  projects db !! id = Some p →
  userId ∉ Project.user <$> Project.members p →
  code (deleteProjectMember actor id userId now db).2 = 200 →
  ∃ p', projects (deleteProjectMember actor id userId now db).1 !! id = Some p'
        ∧ Project.members p' = Project.members p
        ∧ Project.owner p' = Project.owner p.
Proof.
  intros Hp Habsent Hok.
  destruct (deleteProjectMember_effect actor id userId now db)
    as [[_ Hno]|(q & p' & Hq & _ & _ & Hs & Heq)]; [contradiction|].
  rewrite Heq. simpl. rewrite lookup_insert_eq. exists p'. split; [reflexivity|].
  assert (q = p) as -> by congruence.
  apply project_save_loaded in Hs as [Ho Hm]; [|by rewrite isNew_assign].
  rewrite fields_assign in Ho, Hm. simpl in Ho, Hm.
  split; [|exact Ho]. rewrite Hm. by apply filter_out_absent.
Qed.

(** ** Access *)

(** X7. Someone who is neither owner nor member of a project gets
    nothing from it and changes nothing in it: the project's analytics
    and the tasks of the project answer 403 on read; creating a task in
    it, updating one of its tasks or commenting on one leaves the store
    as it was and answers 403 as soon as the request passes the
    route's own checks. *)
Theorem outsider_denied actor pid p db :
  projects db !! pid = Some p →
  Project.hasAccess actor p = false →
  (∀ now, getProjectAnalytics actor pid now db = mkReadReply 403 (Failure "Access denied"))
  ∧ (∀ taskId now b,
       n_project b = Some pid →
       (postTask actor taskId now b db).1 = db
       ∧ (postTaskChecks b = [] →
          (postTask actor taskId now b db).2
          = mkReply 403 (Message "Access denied to this project")))
  ∧ (∀ tid t,
       tasks db !! tid = Some t → Task.project t = pid →
       getTaskById actor tid db = mkReply 403 (Message "Access denied")
       ∧ (∀ now b,
            (putTask actor tid now b db).1 = db
            ∧ (putTaskChecks b = [] →
               (putTask actor tid now b db).2 = mkReply 403 (Message "Access denied")))
       ∧ (∀ now content,
            (postTaskComment actor tid now content db).1 = db
            ∧ (∀ text, content = Some text → text ≠ EmptyString →
               (postTaskComment actor tid now content db).2
               = mkReply 403 (Message "Access denied")))).
Proof.
  intros Hp Hacc. split_and!.
  - intros now. unfold getProjectAnalytics, findById. by rewrite Hp, Hacc.
  - intros taskId now b Hb. unfold postTask, findById. rewrite Hb. simpl. rewrite Hp, Hacc.
    destruct (postTaskChecks b); simpl; split; try reflexivity; discriminate.
  - intros tid t Ht <-. split_and!.
    + unfold getTaskById, findById. by rewrite Ht, Hp, Hacc.
    + intros now b. unfold putTask, findById. rewrite Ht, Hp, Hacc.
      destruct (putTaskChecks b); simpl; split; try reflexivity; discriminate.
    + intros now content. unfold postTaskComment, findById, chain.
      rewrite Ht, Hp, Hacc.
      destruct content as [text|]; simpl.
      * destruct (nonEmpty text) eqn:Hne; simpl; (split; [reflexivity|]).
        -- reflexivity.
        -- intros ? [= <-] Hnot. apply nonEmpty_false in Hne. contradiction.
      * split; [reflexivity|]. discriminate.
Qed.

(** X8. Deleting a task whose project is stored succeeds exactly for the
    project's owner and the task's reporter. On success that task alone
    leaves the collection and reading it answers 404; otherwise the
    reply is 403 and the store is unchanged, also for an admin of the
    project. *)
Theorem deleteTask_owner_or_reporter actor id db t p :
  tasks db !! id = Some t →
  projects db !! Task.project t = Some p →
  (code (deleteTask actor id db).2 = 200
   ↔ Project.owner p = actor ∨ Task.reporter t = actor)
  ∧ (Project.owner p = actor ∨ Task.reporter t = actor →
     let db' := (deleteTask actor id db).1 in
     tasks db' = delete id (tasks db)
     ∧ projects db' = projects db
     ∧ ∀ reader, getTaskById reader id db' = mkReply 404 (Message "Task not found"))
  ∧ (Project.owner p ≠ actor → Task.reporter t ≠ actor →
     deleteTask actor id db = (db, mkReply 403 (Message "Access denied"))).
Proof.
  intros Ht Hp. unfold deleteTask, findById, findByIdAndDelete. rewrite Ht, Hp.
  split_and!.
  - destruct (decide (Project.owner p = actor)) as [Ho|Ho];
      destruct (decide (Task.reporter t = actor)) as [Hr|Hr];
      rewrite ?(bool_decide_eq_true_2 _ Ho), ?(bool_decide_eq_false_2 _ Ho),
        ?(bool_decide_eq_true_2 _ Hr), ?(bool_decide_eq_false_2 _ Hr); simpl;
      split; auto; try discriminate.
    intros [?|?]; contradiction.
  - intros Hcan.
    assert (bool_decide (Project.owner p = actor) || bool_decide (Task.reporter t = actor)
            = true) as ->.
    { apply orb_true_iff. destruct Hcan; [left|right]; by apply bool_decide_eq_true_2. }
    simpl. split_and!; [reflexivity..|].
    intros reader. unfold getTaskById, findById. simpl. by rewrite lookup_delete_eq.
  - intros Ho Hr.
    by rewrite (bool_decide_eq_false_2 _ Ho), (bool_decide_eq_false_2 _ Hr).
Qed.

(** ** What the task routes write *)

Lemma isNew_applyPatch b d : isNew (applyPatch b d) = isNew d.
Proof.
  pose proof (lifeView_applyPatch b d) as Hv. unfold lifeView in Hv.
  destruct (b_status b); by injection Hv.
Qed.

Lemma fixed_applyPatch b d :
  let x := fields (applyPatch b d) in
  Task.project x = Task.project (fields d)
  ∧ Task.reporter x = Task.reporter (fields d)
  ∧ Task.comments x = Task.comments (fields d)
  ∧ Task.isArchived x = Task.isArchived (fields d)
  ∧ Task.createdAt x = Task.createdAt (fields d).
Proof.
  cbv zeta. unfold applyPatch. split_and!.
  - do 9 (rewrite (proj_whenPresent Task.project) by untouched). reflexivity.
  - do 9 (rewrite (proj_whenPresent Task.reporter) by untouched). reflexivity.
  - do 9 (rewrite (proj_whenPresent Task.comments) by untouched). reflexivity.
  - do 9 (rewrite (proj_whenPresent Task.isArchived) by untouched). reflexivity.
  - do 9 (rewrite (proj_whenPresent Task.createdAt) by untouched). reflexivity.
Qed.

Lemma save_fixed now d t :
  Task.save now d = Some t →
  Task.project t = Task.project (fields d)
  ∧ Task.reporter t = Task.reporter (fields d)
  ∧ Task.comments t = Task.comments (fields d)
  ∧ Task.isArchived t = Task.isArchived (fields d)
  ∧ Task.createdAt t = (if isNew d then now else Task.createdAt (fields d))
  ∧ Task.updatedAt t
    = (if isNew d || anyModified (Task.preSave now d) then now
       else Task.updatedAt (fields d)).
Proof.
  intros [_ ->]%save_Some.
  destruct (hookEffect_frame now (isModified "status" d) (fields d))
    as (_ & _ & _ & Hp & Hr & _ & _ & _ & _ & Hc & Ha & Hcr & Hup).
  rewrite <- fields_preSave in Hp, Hr, Hc, Ha, Hcr, Hup.
  assert (isNew (Task.preSave now d) = isNew d) as Hn.
  { unfold Task.preSave. repeat case_match; rewrite ?isNew_assign; reflexivity. }
  unfold Task.stamp. rewrite Hn.
  destruct (isNew d); simpl; [by rewrite Hp, Hr, Hc, Ha|].
  destruct (anyModified (Task.preSave now d)); simpl; by rewrite Hp, Hr, Hc, Ha, ?Hcr, ?Hup.
Qed.

(** X9. A saved update never moves a task to another project and never
    changes its reporter, its comments, its archived flag or its
    creation time; the other tasks and all projects stay as they were. *)
Theorem update_keeps_identity actor id now b db t t' :
  tasks db !! id = Some t →
  code (putTask actor id now b db).2 = 200 →
  tasks (putTask actor id now b db).1 !! id = Some t' →
  Task.project t' = Task.project t
  ∧ Task.reporter t' = Task.reporter t
  ∧ Task.comments t' = Task.comments t
  ∧ Task.isArchived t' = Task.isArchived t
  ∧ Task.createdAt t' = Task.createdAt t
  ∧ (∀ k, k ≠ id → tasks (putTask actor id now b db).1 !! k = tasks db !! k)
  ∧ projects (putTask actor id now b db).1 = projects db.
Proof.
  intros Ht Hok Ht'.
  pose proof (putTask_stored _ _ _ _ _ _ _ Ht Hok Ht') as Hsave.
  destruct (save_fixed _ _ _ Hsave) as (Hp & Hr & Hc & Ha & Hcr & _).
  destruct (fixed_applyPatch b (hydrate t)) as (Fp & Fr & Fc & Fa & Fcr).
  rewrite isNew_applyPatch in Hcr. simpl in *.
  split_and!; try congruence.
  - intros k Hk.
    destruct (putTask_effect actor id now b db)
      as [[-> _]|(x & p & x' & _ & _ & _ & _ & ->)]; [reflexivity|].
    simpl. by rewrite lookup_insert_ne.
  - by destruct (putTask_effect actor id now b db)
      as [[-> _]|(x & p & x' & _ & _ & _ & _ & ->)].
Qed.

Lemma fields_newTask actor b :
  let x := fields (newTask actor b) in
  Task.project x = default EmptyString (n_project b)
  ∧ Task.reporter x = actor
  ∧ Task.comments x = []
  ∧ Task.isArchived x = false
  ∧ Task.progress x = 0
  ∧ Task.title x = trim (default EmptyString (n_title b))
  ∧ Task.assignee x = truthyStr (n_assignee b).
Proof.
  cbv zeta. unfold newTask. rewrite !fields_assign. simpl.
  unfold assignDueDate. repeat case_match; rewrite ?fields_assign; simpl;
    rewrite ?fields_assign; split_and!; reflexivity.
Qed.

Lemma postTaskChecks_nil b :
  postTaskChecks b = [] →
  ∃ title pid, n_title b = Some title ∧ title ≠ EmptyString
               ∧ n_project b = Some pid ∧ isMongoId pid = true.
Proof.
  unfold postTaskChecks, chain. intros H.
  apply app_eq_nil in H as [Ht H]. apply app_eq_nil in H as [Hp _].
  destruct (n_title b) as [title|]; [|discriminate].
  destruct (nonEmpty title) eqn:Hne; [|discriminate].
  destruct (n_project b) as [pid|]; [|discriminate].
  destruct (isMongoId pid) eqn:Hid; [|discriminate].
  exists title, pid. split_and!; [reflexivity| |reflexivity|exact Hid].
  intros ->. vm_compute in Hne. discriminate.
Qed.

Lemma postTask_checked actor taskId now b db :
  code (postTask actor taskId now b db).2 = 201 → postTaskChecks b = [].
Proof. unfold postTask. by destruct (postTaskChecks b). Qed.

(** X10. A task is created only in a stored project the creator can
    access. The new task is filed under that project with the creator as
    reporter, no comments, not archived, created and updated at the time
    of the request, with the requested status or 'todo'; created as
    'completed' it has progress 100 and completedAt at that time, and
    otherwise progress 0 and no completedAt. *)
Theorem created_task actor taskId now b db :
  code (postTask actor taskId now b db).2 = 201 →
  ∃ pid p t,
    n_project b = Some pid
    ∧ projects db !! pid = Some p
    ∧ Project.hasAccess actor p = true
    ∧ tasks (postTask actor taskId now b db).1 !! taskId = Some t
    ∧ Task.project t = pid
    ∧ Task.reporter t = actor
    ∧ Task.comments t = []
    ∧ Task.isArchived t = false
    ∧ Task.createdAt t = now
    ∧ Task.updatedAt t = now
    ∧ Task.status t = default "todo" (truthyStr (n_status b))
    ∧ (Task.status t = "completed" →
       Task.progress t = 100 ∧ Task.completedAt t = Some now)
    ∧ (Task.status t ≠ "completed" →
       Task.progress t = 0 ∧ Task.completedAt t = None).
Proof.
  intros Hok.
  destruct (postTaskChecks_nil b (postTask_checked _ _ _ _ _ Hok))
    as (title & pid & _ & _ & Hpid & _).
  destruct (postTask_effect actor taskId now b db)
    as [[_ Hno]|(p & t & Hp & Hacc & Hs & Heq)]; [contradiction|].
  rewrite Hpid in Hp. simpl in Hp.
  exists pid, p, t. rewrite Heq. simpl. rewrite lookup_insert_eq.
  destruct (save_fixed _ _ _ Hs) as (Ep & Er & Ec & Ea & Ecr & Eup).
  destruct (fields_newTask actor b) as (Fp & Fr & Fc & Fa & Fpr & _).
  destruct (save_life _ _ _ Hs) as (Ls & Lc & Lp).
  pose proof (lifeView_newTask actor b) as Hv. unfold lifeView in Hv.
  injection Hv as Hn Hm Hc0 Hs0.
  rewrite Hn in Ecr, Eup. simpl in Ecr, Eup.
  rewrite Hm in Ls, Lc, Lp. unfold hookEffect in Ls, Lc, Lp.
  rewrite Hc0, Hs0, Hpid in *. simpl in *.
  destruct (bool_decide (default "todo" (truthyStr (n_status b)) = "completed")) eqn:Hb;
    simpl in Ls, Lc, Lp;
    [apply bool_decide_eq_true in Hb | apply bool_decide_eq_false in Hb];
    (split_and!; try congruence; intros; split; congruence).
Qed.

End Routes.

(** * Scenarios

    Concrete runs of the routes. The library functions are instantiated
    by simple stand-ins: every string is a well-formed date and denotes
    the instant 0, and a pattern matches the strings that contain it. *)

Definition anyDate : string → bool := λ _, true.
Definition atZero : string → option Z := λ _, Some 0.
Definition contains : string → string → bool :=
  λ pattern subject, isSome (String.index 0 pattern subject).

Definition alice : string := "a00000000000000000000001".
Definition bob : string := "a00000000000000000000002".
Definition alpha : string := "b00000000000000000000001".
Definition beta : string := "b00000000000000000000002".
Definition draft : string := "c00000000000000000000001".
Definition review : string := "c00000000000000000000002".
Definition legacy : string := "c00000000000000000000003".

Definition projectNamed (name : string) : NewProject :=
  mkNewProject (Some name) None None None None None.

Definition taskIn (project title : string) (status : option string) : NewTask :=
  mkNewTask (Some title) None (Some project) None None status None None None.

Definition noChange : TaskPatch :=
  mkTaskPatch None None None None None None None None None.

Definition statusTo (s : string) : TaskPatch :=
  mkTaskPatch None None None None (Some s) None None None None.

Definition progressTo (n : Z) : TaskPatch :=
  mkTaskPatch None None None None None None None (Some n) None.

Definition anyQuery : TaskQuery := mkTaskQuery None None None None None None None.

Definition inProject (project : string) : TaskQuery :=
  mkTaskQuery None None None None (Some project) None None.

(** Alice creates two projects, makes Bob an admin of the first, and
    files one task in each, the second one already completed. *)
Definition officeRequests : list Request :=
  [ PostProject alice alpha 1000 (projectNamed "Alpha");
    PostProject alice beta 1001 (projectNamed "Beta");
    PostProjectMember alice alpha 1002 (mkNewMember (Some bob) (Some "admin"));
    PostTask alice draft 2000 (taskIn alpha "Write the draft" None);
    PostTask alice review 2001 (taskIn beta "Review the draft" (Some "completed")) ].

Definition office : Db := serve anyDate atZero emptyDb officeRequests.

Example office_projects :
  (λ p, (Project.owner p, (λ m, (Project.user m, Project.role m)) <$> Project.members p))
    <$> projects office !! alpha
  = Some (alice, [(alice, "owner"); (bob, "admin")]).
Proof. vm_compute. reflexivity. Qed.

Example office_draft :
  (λ t, (Task.status t, Task.progress t, Task.completedAt t)) <$> tasks office !! draft
  = Some ("todo", 0, None).
Proof. vm_compute. reflexivity. Qed.

Example office_review :
  (λ t, (Task.status t, Task.progress t, Task.completedAt t)) <$> tasks office !! review
  = Some ("completed", 100, Some 2001).
Proof. vm_compute. reflexivity. Qed.

(** The office after Alice lowers the progress of the completed task. *)
Definition officeLowered : Db :=
  (putTask anyDate atZero alice review 3000 (progressTo 40) office).1.

(** The office with one more task of project Alpha, archived, last
    touched at 9000. *)
Definition archivedNotes : Task.t :=
  Task.mk "Old notes" EmptyString "todo" "medium" alpha None alice [] None None 0 [] None
    true 500 9000.

Definition officeWithArchive : Db :=
  withTasks (<[legacy := archivedNotes]> (tasks office)) office.

(** C2, counterexample. A completed task whose progress was lowered to
    40 and to which an update sends status 'completed' again: the
    update is saved, the status is 'completed', and progress stays 40. *)
Lemma recompleting_leaves_progress :
  let after := putTask anyDate atZero alice review 4000 (statusTo "completed") officeLowered in
  b_status (statusTo "completed") = Some "completed"
  ∧ code after.2 = 200
  ∧ ∃ t', tasks after.1 !! review = Some t'
          ∧ Task.status t' = "completed"
          ∧ Task.progress t' = 40
          ∧ Task.progress t' ≠ 100.
Proof.
  cbv zeta. split; [reflexivity|]. split; [vm_compute; reflexivity|].
  eexists. split; [vm_compute; reflexivity|].
  split; [reflexivity|]. split; [reflexivity|]. discriminate.
Qed.

(** C9, counterexample. An update that sets progress to 150 breaks the
    numeric range of the field; the reply is the generic status 500
    message, not a list of errors, so the field in violation is not
    reported. *)
Lemma out_of_range_progress_unreported :
  let reply := (putTask anyDate atZero alice draft 3000 (progressTo 150) office).2 in
  ¬ (0 ≤ 150 ≤ 100)
  ∧ reply = mkReply 500 (Message "Server error")
  ∧ ¬ ∃ errors, payload reply = Errors errors ∧ "progress" ∈ path <$> errors.
Proof.
  cbv zeta. split; [lia|].
  assert ((putTask anyDate atZero alice draft 3000 (progressTo 150) office).2
          = mkReply 500 (Message "Server error")) as -> by (vm_compute; reflexivity).
  split; [reflexivity|]. intros (errors & [=] & _).
Qed.

(** C6, failing input. Alice asks for the tasks of project Alpha only;
    the page also holds the task of project Beta, because the handler
    replaces the [project] entry of the filter by the accessible
    projects. *)
Theorem project_filter_overwritten :
  match payload (getTasks contains alice (inProject alpha) office) with
  | TaskPage page _ => (λ kv, (kv.1, Task.project kv.2)) <$> page
  | _ => []
  end
  = [(review, beta); (draft, alpha)].
Proof. vm_compute. reflexivity. Qed.

(** C7, failing input. With an archived task of an accessible project
    touched in the last seven days, the counts leave it out (two live
    tasks) and the recent-activity list shows it. *)
Theorem recent_activity_lists_archived :
  match payload (getDashboard contains alice 10000 officeWithArchive) with
  | Stats d => ((λ kv, (kv.1, Task.isArchived kv.2)) <$> recentActivity d, totalTasks d)
  | _ => ([], 0%nat)
  end
  = ([(legacy, true); (review, false); (draft, false)], 2%nat).
Proof. vm_compute. reflexivity. Qed.

(** ** The theorems at work on the office *)

Lemma completedAt_set_iff_completed_office :
  ∃ t t',
    tasks office !! draft = Some t
    ∧ tasks (putTask anyDate atZero alice draft 3000 (statusTo "completed") office).1 !! draft
      = Some t'
    ∧ (Task.completedAt t ≠ None ↔ Task.status t = "completed")
    ∧ Task.completedAt t' = Some 3000.
Proof.
  eexists. eexists.
  split; [vm_compute; reflexivity|]. split; [vm_compute; reflexivity|].
  destruct (completedAt_set_iff_completed anyDate atZero officeRequests)
    as [Hinv Hmove].
  split.
  - apply (Hinv draft). vm_compute. reflexivity.
  - eapply (Hmove alice draft 3000 (statusTo "completed")).
    + vm_compute. reflexivity.
    + vm_compute. reflexivity.
    + vm_compute. reflexivity.
    + vm_compute. discriminate.
    + vm_compute. reflexivity.
Defined.

Lemma completing_sets_completedAt_and_progress_office :
  ∃ t', tasks (putTask anyDate atZero alice draft 3000 (statusTo "completed") office).1 !! draft
        = Some t'
        ∧ Task.status t' = "completed"
        ∧ Task.completedAt t' = Some 3000
        ∧ Task.progress t' = 100.
Proof.
  eexists. split; [vm_compute; reflexivity|].
  eapply (completing_sets_completedAt_and_progress anyDate atZero officeRequests
            alice draft 3000 (statusTo "completed")).
  - vm_compute. reflexivity.
  - vm_compute. discriminate.
  - reflexivity.
  - vm_compute. reflexivity.
  - vm_compute. reflexivity.
Defined.

Lemma uncompleting_keeps_progress_office :
  ∃ t', tasks (putTask anyDate atZero alice review 3000 (statusTo "todo") office).1 !! review
        = Some t'
        ∧ Task.status t' = "todo"
        ∧ Task.progress t' = default 100 (b_progress (statusTo "todo"))
        ∧ (b_progress (statusTo "todo") = None → Task.progress t' = 100).
Proof.
  eexists. split; [vm_compute; reflexivity|].
  eapply (uncompleting_keeps_progress anyDate atZero alice review 3000
            (statusTo "todo") office).
  - vm_compute. reflexivity.
  - vm_compute. reflexivity.
  - vm_compute. reflexivity.
  - reflexivity.
  - discriminate.
  - vm_compute. reflexivity.
  - vm_compute. reflexivity.
Defined.

Lemma putTask_rejections_office :
  (∃ errors,
     putTask anyDate atZero alice draft 3000 (statusTo "done") office
     = (office, mkReply 400 (Errors errors))
     ∧ "status" ∈ path <$> errors)
  ∧ putTask anyDate atZero alice draft 3000 (progressTo 150) office
    = (office, mkReply 500 (Message "Server error")).
Proof.
  split.
  - destruct (putTask_rejections anyDate atZero alice draft 3000
                (statusTo "done") office) as (Hroute & _ & _).
    destruct Hroute as (errors & Hreply & Hlisted).
    + exists "status". right. right. left. split; [reflexivity|].
      exists "done". split; [reflexivity|].
      apply (bool_decide_eq_false_1 _). vm_compute. reflexivity.
    + exists errors. split; [exact Hreply|].
      apply Hlisted. right. right. left. split; [reflexivity|].
      exists "done". split; [reflexivity|].
      apply (bool_decide_eq_false_1 _). vm_compute. reflexivity.
  - destruct (putTask_rejections anyDate atZero alice draft 3000
                (progressTo 150) office) as (_ & Hschema & _).
    eapply (Hschema _ _ 150).
    + intros (f & [[_ [=]]|[(_ & v & [=] & _)|[(_ & v & [=] & _)|(_ & v & [=] & _)]]]).
    + vm_compute. reflexivity.
    + vm_compute. reflexivity.
    + vm_compute. reflexivity.
    + reflexivity.
    + lia.
Defined.


Lemma remove_owner_rejected_office :
  ∃ p, projects office !! alpha = Some p
       ∧ Project.owner p = alice
       ∧ deleteProjectMember bob alpha (Project.owner p) 5000 office
         = (office, mkReply 400 (Message "Cannot remove project owner")).
Proof.
  eexists. split; [vm_compute; reflexivity|]. split; [reflexivity|].
  apply remove_owner_rejected.
  - vm_compute. reflexivity.
  - vm_compute. reflexivity.
Defined.

Lemma deleteProject_cascade_office :
  deleteProject bob beta office
  = (office, mkReply 403 (Message "Only project owner can delete the project"))
  ∧ getTaskById alice review (deleteProject alice beta office).1
    = mkReply 404 (Message "Task not found").
Proof.
  assert (∃ p, projects office !! beta = Some p ∧ Project.owner p = alice) as (p & Hp & Ho).
  { eexists. split; [vm_compute; reflexivity|]. reflexivity. }
  destruct (deleteProject_cascade bob beta office p Hp) as [Hdenied _].
  destruct (deleteProject_cascade alice beta office p Hp) as [_ Hcascade].
  split.
  - apply Hdenied. rewrite Ho. vm_compute. discriminate.
  - destruct (Hcascade Ho) as (_ & _ & Hgone & _).
    assert (∃ t, tasks office !! review = Some t ∧ Task.project t = beta) as (t & Ht & Hproj).
    { eexists. split; [vm_compute; reflexivity|]. reflexivity. }
    apply (Hgone review t Ht Hproj).
Defined.
